(** * focus_tasks: the daily-reset and task-state reconciliation core of src/app.js

    A shallow embedding of the state-handling functions of [src/app.js]
    (loadState, saveState, checkMidnightReset, performDailyReset,
    ensureDailyTasks, addTask, toggleTask, updateDailyTask, removeDailyTask,
    addDailyTemplate, the settings click handlers and init), followed by the
    properties of the specification that concern them.

    Modelling conventions.
    - JavaScript objects that are used as structs (tasks, routine templates,
      settings, the application state) are records; arrays are lists; the
      string-valued fields stay strings and are compared with [===] as
      strings.
    - The host is a record [World]: the global variable [state], the
      localStorage slot under STORAGE_KEY, the host clock and the stream of
      [Math.random] draws.  Every function of the source that reads or writes
      one of them is a computation in the monad [Js], which threads the world
      and can raise a JavaScript exception.  An exception carries the world as
      it was when it was raised, because JavaScript does not roll back.
    - DOM work (rendering, focus, CSS classes) reads the state and writes none
      of it; those functions are kept under their names and do nothing to the
      world.

    What the model leaves out.
    - The clock is one value per world: the handlers run to completion, and a
      start of the script that straddles midnight is not modelled.
    - [localStorage.setItem] always succeeds (no quota error).
    - The stored text is identified by what [JSON.parse] makes of it (see
      [Blob]); a stored document whose fields have other types than the ones
      of the data model is outside the typed state.
    - [[...DEFAULT_DAILY_TASKS]] copies the array, not the templates, so the
      templates of a first run are the objects of the constant.  The constant
      is read by [loadState] alone, which [init] calls once, before any
      handler can run; the sharing is therefore not observable and
      [DEFAULT_DAILY_TASKS] is a constant here. *)

From Stdlib Require Import ZArith Lia Ascii.
From stdpp Require Import base tactics option list strings.

Local Open Scope string_scope.
Local Open Scope list_scope.
Local Open Scope Z_scope.

(** ** Data model (src/app.js:9-26) *)

(** [{ id, text, type: 'daily' }]: an entry of [dailyRoutine]. *)
Module RoutineTemplate.
Record t := mk { id : string; text : string; type : string }.
End RoutineTemplate.

(** [{ id, text, completed, type, dateAdded }]: an entry of [tasks]. *)
Module Task.
Record t := mk {
  id : string;
  text : string;
  completed : bool;
  type : string;
  dateAdded : string
}.
End Task.

Record Settings := mkSettings {
  font : Z;
  timeFormat : string;
  dateFormat : string;
  themeColor : string
}.

(** The global [state].  [lastOpenDate] is [null] until the first run has set
    it: [None] is JavaScript's [null]. *)
Record AppState := mkAppState {
  tasks : list Task.t;
  dailyRoutine : list RoutineTemplate.t;
  settings : Settings;
  lastOpenDate : option string
}.

(** src/app.js:9-13 *)
Definition DEFAULT_DAILY_TASKS : list RoutineTemplate.t :=
  [ RoutineTemplate.mk "dt1" "Morning Stretch" "daily";
    RoutineTemplate.mk "dt2" "Read 15 Mins" "daily";
    RoutineTemplate.mk "dt3" "Clear Inbox" "daily" ].

(** src/app.js:16-26: the value of [state] when the script starts. *)
Definition initial_state : AppState :=
  {| tasks := [];
     dailyRoutine := [];
     settings := {| font := 1; timeFormat := "12h"; dateFormat := "Month";
                    themeColor := "green" |};
     lastOpenDate := None |}.

(** ** The persisted blob

    What [JSON.parse] yields on a blob written by an earlier session: an
    object that holds any subset of the four fields of the state.  A key that
    is absent is [None].  [dailyRoutine] and [lastOpenDate] can also be
    present with the value [null] (inner [None]). *)
Record Saved := mkSaved {
  saved_tasks : option (list Task.t);
  saved_dailyRoutine : option (option (list RoutineTemplate.t));
  saved_settings : option Settings;
  saved_lastOpenDate : option (option string)
}.

(** The text stored under STORAGE_KEY, identified by what [JSON.parse] does
    with it: [NotJson raw] is a text that [JSON.parse] rejects, [Json saved]
    a text that it parses to [saved]. *)
Inductive Blob :=
| NotJson (raw : string)
| Json (saved : Saved).

(** [if (raw)] on a string: only the empty string is falsy. *)
Definition blob_truthy (b : Blob) : bool :=
  match b with
  | NotJson raw => negb (bool_decide (raw = ""))
  | Json _ => true
  end.

(** [JSON.parse(raw)]; [None] stands for the SyntaxError it throws. *)
Definition JSON_parse (b : Blob) : option Saved :=
  match b with
  | NotJson _ => None
  | Json saved => Some saved
  end.

(** [JSON.stringify(state)]: all four keys are written. *)
Definition JSON_stringify (st : AppState) : Blob :=
  Json {| saved_tasks := Some (tasks st);
          saved_dailyRoutine := Some (Some (dailyRoutine st));
          saved_settings := Some (settings st);
          saved_lastOpenDate := Some (lastOpenDate st) |}.

(** ** The host *)

Record World := mkWorld {
  state : AppState;
  (** the values written under STORAGE_KEY, newest first; [getItem] reads the
      head, and an empty history is a key that was never set *)
  localStorage : list Blob;
  (** [new Date().toDateString()] *)
  now : string;
  (** [random k] is what [Math.random().toString(36).substr(2, 9)] yields
      on the k-th draw of this process *)
  random : nat → string;
  draws : nat
}.

Inductive JsError := SyntaxError | TypeError.

Inductive Outcome (A : Type) :=
| Return (a : A) (w : World)
| Throw (e : JsError) (w : World).
Arguments Return {A} a w.
Arguments Throw {A} e w.

Definition Js (A : Type) : Type := World → Outcome A.

(** [Js] is a monad in the sense of stdpp: [x ← m; k] runs [m], and runs [k]
    in the world [m] returned in; an exception ends the computation. *)
#[global] Instance Js_ret : MRet Js := λ A a w, Return a w.

#[global] Instance Js_bind : MBind Js := λ A B k m w,
  match m w with
  | Return a w' => k a w'
  | Throw e w' => Throw e w'
  end.

Definition throw {A} (e : JsError) : Js A := λ w, Throw e w.

(** The world an outcome ends in, returned or thrown. *)
Definition world_of {A} (o : Outcome A) : World :=
  match o with
  | Return _ w => w
  | Throw _ w => w
  end.

Definition get_state : Js AppState := fun w => Return (state w) w.

Definition modify_state (f : AppState → AppState) : Js unit :=
  fun w => Return tt
    {| state := f (state w); localStorage := localStorage w; now := now w;
       random := random w; draws := draws w |}.

Definition set_tasks (l : list Task.t) (st : AppState) : AppState :=
  {| tasks := l; dailyRoutine := dailyRoutine st; settings := settings st;
     lastOpenDate := lastOpenDate st |}.

Definition set_dailyRoutine (l : list RoutineTemplate.t) (st : AppState) : AppState :=
  {| tasks := tasks st; dailyRoutine := l; settings := settings st;
     lastOpenDate := lastOpenDate st |}.

Definition set_settings (s : Settings) (st : AppState) : AppState :=
  {| tasks := tasks st; dailyRoutine := dailyRoutine st; settings := s;
     lastOpenDate := lastOpenDate st |}.

Definition set_lastOpenDate (d : option string) (st : AppState) : AppState :=
  {| tasks := tasks st; dailyRoutine := dailyRoutine st; settings := settings st;
     lastOpenDate := d |}.

(** [new Date().toDateString()] *)
Definition toDateString : Js string := fun w => Return (now w) w.

(** [localStorage.getItem(STORAGE_KEY)] *)
Definition getItem : Js (option Blob) := fun w => Return (head (localStorage w)) w.

(** [localStorage.setItem(STORAGE_KEY, b)] *)
Definition setItem (b : Blob) : Js unit :=
  fun w => Return tt
    {| state := state w; localStorage := b :: localStorage w; now := now w;
       random := random w; draws := draws w |}.

(** The world after [n] more draws of [Math.random]. *)
Definition advance (n : nat) (w : World) : World :=
  {| state := state w; localStorage := localStorage w; now := now w;
     random := random w; draws := (n + draws w)%nat |}.

(** src/app.js:372-374 *)
Definition generateId : Js string :=
  fun w => Return ("_" +:+ random w (draws w)) (advance 1 w).

(** [l.map(f)] with a callback that has effects: left to right. *)
Fixpoint mapM {A B} (f : A → Js B) (l : list A) : Js (list B) :=
  match l with
  | [] => mret []
  | x :: xs => y ← f x; ys ← mapM f xs; mret (y :: ys)
  end.

(** ** [String.prototype.trim]

    Strings are sequences of bytes (UTF-8).  [trim] removes, at both ends,
    the characters ECMAScript calls WhiteSpace or LineTerminator. *)

Definition utf8 (bytes : list nat) : string :=
  foldr (λ n s, String (Ascii.ascii_of_nat n) s) "" bytes.

Definition WhiteSpace : list string :=
  map utf8
    [ [9%nat]; [10%nat]; [11%nat]; [12%nat]; [13%nat]; [32%nat];   (* TAB LF VT FF CR SP *)
      [194; 160]%nat;                                              (* U+00A0 *)
      [225; 154; 128]%nat;                                         (* U+1680 *)
      [226; 128; 128]%nat; [226; 128; 129]%nat; [226; 128; 130]%nat;
      [226; 128; 131]%nat; [226; 128; 132]%nat; [226; 128; 133]%nat;
      [226; 128; 134]%nat; [226; 128; 135]%nat; [226; 128; 136]%nat;
      [226; 128; 137]%nat; [226; 128; 138]%nat;                    (* U+2000..U+200A *)
      [226; 128; 168]%nat; [226; 128; 169]%nat;                    (* U+2028 U+2029 *)
      [226; 128; 175]%nat;                                         (* U+202F *)
      [226; 129; 159]%nat;                                         (* U+205F *)
      [227; 128; 128]%nat;                                         (* U+3000 *)
      [239; 187; 191]%nat ].                                       (* U+FEFF *)

(** [drop_prefix p s] is [Some r] when [s] is [p] followed by [r]. *)
Fixpoint drop_prefix (p s : string) : option string :=
  match p, s with
  | EmptyString, _ => Some s
  | String a p', String b s' => if Ascii.eqb a b then drop_prefix p' s' else None
  | String _ _, EmptyString => None
  end.

Definition drop_one (ws : list string) (s : string) : option string :=
  foldr (λ p acc, match drop_prefix p s with Some r => Some r | None => acc end)
        None ws.

Fixpoint strip (fuel : nat) (ws : list string) (s : string) : string :=
  match fuel with
  | O => s
  | S fuel' => match drop_one ws s with
               | Some r => strip fuel' ws r
               | None => s
               end
  end.

Definition trimStart (s : string) : string := strip (String.length s) WhiteSpace s.

Definition trimEnd (s : string) : string :=
  String.rev (strip (String.length s) (map String.rev WhiteSpace) (String.rev s)).

Definition trim (s : string) : string := trimEnd (trimStart s).

(** Truthiness of a string: the empty string alone is falsy. *)
Definition truthy (s : string) : bool := negb (bool_decide (s = "")).

(** ** DOM collaborators

    They read [state] and write the page; none assigns to [state] or to
    localStorage. *)
Definition renderTasks : Js unit := mret tt.          (* src/app.js:189-214 *)
Definition renderDailySettings : Js unit := mret tt.  (* src/app.js:216-228 *)
Definition applySettings : Js unit := mret tt.        (* src/app.js:230-245 *)
Definition updateTime : Js unit := mret tt.           (* src/app.js:151-186 *)
Definition setupEventListeners : Js unit := mret tt.  (* src/app.js:323-369 *)
Definition feather_replace : Js unit := mret tt.
Definition setInterval_updateTime : Js unit := mret tt.

(** ** Persistence and reconciliation *)

(** src/app.js:111-113 *)
Definition saveState : Js unit :=
  st ← get_state; setItem (JSON_stringify st).

(** The object literal
    [{ ...t, id: i, completed: false, dateAdded: d }]
    of src/app.js:74-79, 101-106 and 131-136: the template's own fields, with
    [id] overwritten and [completed], [dateAdded] added. *)
Definition spread_template (t : RoutineTemplate.t) (i d : string) : Task.t :=
  {| Task.id := i;
     Task.text := RoutineTemplate.text t;
     Task.completed := false;
     Task.type := RoutineTemplate.type t;
     Task.dateAdded := d |}.

(** src/app.js:71: [state.tasks.some(t => t.type === 'daily')] *)
Definition hasDailyTasks (l : list Task.t) : bool :=
  existsb (λ t, String.eqb (Task.type t) "daily") l.

(** src/app.js:69-84 *)
Definition ensureDailyTasks : Js unit :=
  st ← get_state;
  if negb (hasDailyTasks (tasks st))
     && (0 <? Z.of_nat (length (dailyRoutine st))) then
    today ← toDateString;
    dailyTasksToAdd ← mapM (λ t, i ← generateId; mret (spread_template t i today))
                           (dailyRoutine st);
    modify_state (λ st, set_tasks (dailyTasksToAdd ++ tasks st) st);;
    saveState
  else mret tt.

(** src/app.js:95-108, the [else] branch of [loadState]: first run.
    [dateAdded: state.lastOpenDate] reads the date string assigned two
    statements earlier. *)
Definition loadState_firstRun : Js unit :=
  modify_state (set_dailyRoutine DEFAULT_DAILY_TASKS);;
  today ← toDateString;
  modify_state (set_lastOpenDate (Some today));;
  st ← get_state;
  initial ← mapM (λ t, i ← generateId; mret (spread_template t i today))
                 (dailyRoutine st);
  modify_state (set_tasks initial);;
  saveState.

(** [state = { ...state, ...saved }]: every key of [saved] overrides the
    field of the same name.  [dailyRoutine] is the one field that is tested
    afterwards, with [!state.dailyRoutine]; the value it has between the two
    statements is [None] when it is [null]. *)
Definition spread_saved (st : AppState) (saved : Saved)
  : list Task.t * option (list RoutineTemplate.t) * Settings * option string :=
  (default (tasks st) (saved_tasks saved),
   default (Some (dailyRoutine st)) (saved_dailyRoutine saved),
   default (settings st) (saved_settings saved),
   default (lastOpenDate st) (saved_lastOpenDate saved)).

(** src/app.js:87-109 *)
Definition loadState : Js unit :=
  raw ← getItem;
  match raw with
  | Some b =>
      if blob_truthy b then
        match JSON_parse b with
        | None => throw SyntaxError
        | Some saved =>
            st ← get_state;
            let '(tasks', routine, settings', lastOpenDate') := spread_saved st saved in
            (* Merge defaults if missing *)
            let routine' := match routine with
                            | None => DEFAULT_DAILY_TASKS
                            | Some r => r
                            end in
            modify_state (λ _, {| tasks := tasks'; dailyRoutine := routine';
                                  settings := settings';
                                  lastOpenDate := lastOpenDate' |})
        end
      else loadState_firstRun
  | None => loadState_firstRun
  end.

(** src/app.js:125-143 *)
Definition performDailyReset (todayDate : string) : Js unit :=
  st ← get_state;
  newDailyTasks ← mapM (λ t, i ← generateId; mret (spread_template t i todayDate))
                       (dailyRoutine st);
  modify_state (set_tasks newDailyTasks);;
  modify_state (set_lastOpenDate (Some todayDate));;
  saveState;;
  renderTasks.

(** src/app.js:116-123 *)
Definition checkMidnightReset : Js unit :=
  today ← toDateString;
  st ← get_state;
  if negb (bool_decide (lastOpenDate st = Some today)) then
    performDailyReset today
  else mret tt.

(** src/app.js:145-148 *)
Definition resetDailyTasks : Js unit :=
  today ← toDateString; performDailyReset today.

(** src/app.js:48-67 *)
Definition init : Js unit :=
  loadState;;
  checkMidnightReset;;
  applySettings;;
  ensureDailyTasks;;
  renderTasks;;
  renderDailySettings;;
  updateTime;;
  setupEventListeners;;
  feather_replace;;
  setInterval_updateTime.

(** The startup reconciliation: what [init] does to a state once it is
    loaded, src/app.js:50-54. *)
Definition reconcile : Js unit :=
  checkMidnightReset;;
  applySettings;;
  ensureDailyTasks.

(** ** Actions *)

(** src/app.js:248-261 *)
Definition addTask (text : string) : Js unit :=
  if negb (truthy (trim text)) then mret tt
  else
    i ← generateId;
    today ← toDateString;
    let newTask := {| Task.id := i; Task.text := trim text; Task.completed := false;
                      Task.type := "extra"; Task.dateAdded := today |} in
    modify_state (λ st, set_tasks (tasks st ++ [newTask]) st);;
    saveState;;
    renderTasks.

(** [task.completed = !task.completed] *)
Definition flip_completed (t : Task.t) : Task.t :=
  {| Task.id := Task.id t; Task.text := Task.text t;
     Task.completed := negb (Task.completed t);
     Task.type := Task.type t; Task.dateAdded := Task.dateAdded t |}.

(** src/app.js:263-270.  [find] yields the first task whose id is [id]; the
    assignment mutates that object where it sits in the array. *)
Definition toggleTask (id : string) : Js unit :=
  st ← get_state;
  match list_find (λ t, Task.id t = id) (tasks st) with
  | Some (i, task) =>
      modify_state (λ st, set_tasks (<[i := flip_completed task]> (tasks st)) st);;
      saveState;;
      renderTasks
  | None => mret tt
  end.

(** [a[index]] for a number [index]: [undefined] ([None]) outside
    [0 .. a.length - 1]. *)
Definition at_index {A} (a : list A) (index : Z) : option A :=
  if bool_decide (0 ≤ index) then a !! Z.to_nat index else None.

Definition set_text (s : string) (t : RoutineTemplate.t) : RoutineTemplate.t :=
  {| RoutineTemplate.id := RoutineTemplate.id t; RoutineTemplate.text := s;
     RoutineTemplate.type := RoutineTemplate.type t |}.

(** src/app.js:273-278.  Assigning to a property of [undefined] throws a
    TypeError. *)
Definition updateDailyTask (index : Z) (newText : string) : Js unit :=
  if truthy (trim newText) then
    st ← get_state;
    match at_index (dailyRoutine st) index with
    | None => throw TypeError
    | Some t =>
        modify_state (λ st, set_dailyRoutine
          (<[Z.to_nat index := set_text (trim newText) t]> (dailyRoutine st)) st);;
        saveState
    end
  else mret tt.

(** [a.splice(index, 1)]: the start is counted from the end when [index] is
    negative, and clamped to [0 .. a.length]; at most one element goes. *)
Definition splice1 {A} (a : list A) (index : Z) : list A :=
  let len := Z.of_nat (length a) in
  let start := if bool_decide (index < 0) then Z.max (len + index) 0
               else Z.min index len in
  delete (Z.to_nat start) a.

(** src/app.js:280-284 *)
Definition removeDailyTask (index : Z) : Js unit :=
  modify_state (λ st, set_dailyRoutine (splice1 (dailyRoutine st) index) st);;
  saveState;;
  renderDailySettings.

(** src/app.js:286-295 *)
Definition addDailyTemplate : Js unit :=
  i ← generateId;
  modify_state (λ st, set_dailyRoutine
    (dailyRoutine st ++ [RoutineTemplate.mk i "" "daily"]) st);;
  saveState;;
  renderDailySettings.

(** ** Settings handlers (the closures of [setupEventListeners]) *)

Definition set_timeFormat (f : string) (s : Settings) : Settings :=
  {| font := font s; timeFormat := f; dateFormat := dateFormat s;
     themeColor := themeColor s |}.

Definition set_dateFormat (f : string) (s : Settings) : Settings :=
  {| font := font s; timeFormat := timeFormat s; dateFormat := f;
     themeColor := themeColor s |}.

Definition set_font (n : Z) (s : Settings) : Settings :=
  {| font := n; timeFormat := timeFormat s; dateFormat := dateFormat s;
     themeColor := themeColor s |}.

Definition set_themeColor (c : string) (s : Settings) : Settings :=
  {| font := font s; timeFormat := timeFormat s; dateFormat := dateFormat s;
     themeColor := c |}.

(** src/app.js:334-338 *)
Definition onTimeDisplayClick : Js unit :=
  modify_state (λ st, set_settings
    (set_timeFormat (if String.eqb (timeFormat (settings st)) "12h" then "24h" else "12h")
                    (settings st)) st);;
  saveState;;
  updateTime.

(** [a.indexOf(x)]: the first index that holds [x], or -1. *)
Fixpoint indexOf (a : list string) (x : string) : Z :=
  match a with
  | [] => -1
  | y :: a' => if String.eqb y x then 0
               else let i := indexOf a' x in if i <? 0 then -1 else i + 1
  end.

(** src/app.js:340-347.  [nextIdx] is 0, 1 or 2, so [formats[nextIdx]] is
    defined. *)
Definition onDateDisplayClick : Js unit :=
  let formats := ["Month"; "MM/DD"; "DD/MM"] in
  st ← get_state;
  let currentIdx := indexOf formats (dateFormat (settings st)) in
  let nextIdx := Z.rem (currentIdx + 1) (Z.of_nat (length formats)) in
  modify_state (λ st, set_settings
    (set_dateFormat (default (dateFormat (settings st)) (at_index formats nextIdx))
                    (settings st)) st);;
  saveState;;
  updateTime.

(** src/app.js:350-356; [n] is [parseInt(btn.dataset.font)]. *)
Definition onFontBtnClick (n : Z) : Js unit :=
  modify_state (λ st, set_settings (set_font n (settings st)) st);;
  saveState;;
  applySettings.

(** src/app.js:359-365; [c] is [btn.dataset.color]. *)
Definition onColorBtnClick (c : string) : Js unit :=
  modify_state (λ st, set_settings (set_themeColor c (settings st)) st);;
  saveState;;
  applySettings.

(** The operations a session can run on the state once [init] is done: the
    event handlers and the functions exposed on [window]. *)
Inductive Action :=
| AddTask (text : string)
| ToggleTask (id : string)
| UpdateDailyTask (index : Z) (newText : string)
| RemoveDailyTask (index : Z)
| AddDailyTemplate
| ResetDailyTasks
| TimeDisplayClick
| DateDisplayClick
| FontBtnClick (n : Z)
| ColorBtnClick (c : string).

Definition run (a : Action) : Js unit :=
  match a with
  | AddTask text => addTask text
  | ToggleTask id => toggleTask id
  | UpdateDailyTask index newText => updateDailyTask index newText
  | RemoveDailyTask index => removeDailyTask index
  | AddDailyTemplate => addDailyTemplate
  | ResetDailyTasks => resetDailyTasks
  | TimeDisplayClick => onTimeDisplayClick
  | DateDisplayClick => onDateDisplayClick
  | FontBtnClick n => onFontBtnClick n
  | ColorBtnClick c => onColorBtnClick c
  end.

(** ** Vocabulary of the specification *)

(** Data model, RoutineTemplate: [type] is always [daily]. *)
Definition routine_daily (r : list RoutineTemplate.t) : Prop :=
  Forall (λ t, RoutineTemplate.type t = "daily") r.

(** The identifiers the next [n] calls of [generateId] return in [w]. *)
Definition fresh_ids (w : World) (n : nat) : list string :=
  map (λ k, "_" +:+ random w (k + draws w)%nat) (seq 0 n).

(** One task per template, in routine order, with the given identifiers. *)
Definition instantiate (today : string) (r : list RoutineTemplate.t)
    (ids : list string) : list Task.t :=
  zip_with (λ t i, spread_template t i today) r ids.

(** [t] is an instance of the template [tpl] made on [today]: the text and
    the type are the template's, and the task is not completed. *)
Definition instance_of (today : string) (tpl : RoutineTemplate.t) (t : Task.t) : Prop :=
  Task.text t = RoutineTemplate.text tpl ∧
  Task.type t = RoutineTemplate.type tpl ∧
  Task.completed t = false ∧
  Task.dateAdded t = today.

(** ** The worlds the computations end in *)

Definition saved_world (st : AppState) (w : World) : World :=
  {| state := st; localStorage := JSON_stringify st :: localStorage w;
     now := now w; random := random w; draws := draws w |}.

(** The state a reset to the date [d] leaves behind. *)
Definition reset_state (d : string) (w : World) : AppState :=
  {| tasks := instantiate d (dailyRoutine (state w))
                (fresh_ids w (length (dailyRoutine (state w))));
     dailyRoutine := dailyRoutine (state w);
     settings := settings (state w);
     lastOpenDate := Some d |}.

Definition reset_world (d : string) (w : World) : World :=
  {| state := reset_state d w;
     localStorage := JSON_stringify (reset_state d w) :: localStorage w;
     now := now w;
     random := random w;
     draws := (length (dailyRoutine (state w)) + draws w)%nat |}.

(** The state a backfill leaves behind. *)
Definition backfill_state (w : World) : AppState :=
  {| tasks := instantiate (now w) (dailyRoutine (state w))
                (fresh_ids w (length (dailyRoutine (state w))))
              ++ tasks (state w);
     dailyRoutine := dailyRoutine (state w);
     settings := settings (state w);
     lastOpenDate := lastOpenDate (state w) |}.

Definition backfill_world (w : World) : World :=
  {| state := backfill_state w;
     localStorage := JSON_stringify (backfill_state w) :: localStorage w;
     now := now w;
     random := random w;
     draws := (length (dailyRoutine (state w)) + draws w)%nat |}.

(** The state the first-run branch builds. *)
Definition firstRun_state (w : World) : AppState :=
  {| tasks := instantiate (now w) DEFAULT_DAILY_TASKS
                (fresh_ids w (length DEFAULT_DAILY_TASKS));
     dailyRoutine := DEFAULT_DAILY_TASKS;
     settings := settings (state w);
     lastOpenDate := Some (now w) |}.

Definition firstRun_world (w : World) : World :=
  {| state := firstRun_state w;
     localStorage := JSON_stringify (firstRun_state w) :: localStorage w;
     now := now w;
     random := random w;
     draws := (length DEFAULT_DAILY_TASKS + draws w)%nat |}.

(** The state [loadState] assigns when the blob parses to [saved]. *)
Definition loaded_state (st : AppState) (saved : Saved) : AppState :=
  {| tasks := default (tasks st) (saved_tasks saved);
     dailyRoutine := match default (Some (dailyRoutine st)) (saved_dailyRoutine saved) with
                     | None => DEFAULT_DAILY_TASKS
                     | Some r => r
                     end;
     settings := default (settings st) (saved_settings saved);
     lastOpenDate := default (lastOpenDate st) (saved_lastOpenDate saved) |}.

Definition with_state (st : AppState) (w : World) : World :=
  {| state := st; localStorage := localStorage w; now := now w;
     random := random w; draws := draws w |}.

(** ** [escapeHtml] (src/app.js:376-384) *)

(** [s.replace(/c/g, r)] for a pattern of one character [c] and a replacement
    text [r] without [$]: every occurrence of [c] becomes [r], left to
    right. *)
Fixpoint replace_char (c : Ascii.ascii) (r : string) (s : string) : string :=
  match s with
  | EmptyString => EmptyString
  | String x s' =>
      if Ascii.eqb x c then r +:+ replace_char c r s'
      else String x (replace_char c r s')
  end.

(** The double quote and the apostrophe. *)
Definition quot : Ascii.ascii := Ascii.ascii_of_nat 34.
Definition apos : Ascii.ascii := Ascii.ascii_of_nat 39.

(** src/app.js:376-384 *)
Definition escapeHtml (text : string) : string :=
  if negb (truthy text) then ""
  else
    replace_char apos "&#039;"
      (replace_char quot "&quot;"
        (replace_char ">"%char "&gt;"
          (replace_char "<"%char "&lt;"
            (replace_char "&"%char "&amp;" text)))).

(** The five replacements of [escapeHtml], in the order of the source. *)
Definition five_replaces (s : string) : string :=
  replace_char apos "&#039;"
    (replace_char quot "&quot;"
      (replace_char ">"%char "&gt;"
        (replace_char "<"%char "&lt;"
          (replace_char "&"%char "&amp;" s)))).

(** The characters [escapeHtml] rewrites. *)
Definition special (c : Ascii.ascii) : bool :=
  Ascii.eqb c "&"%char || Ascii.eqb c "<"%char || Ascii.eqb c ">"%char
  || Ascii.eqb c quot || Ascii.eqb c apos.

(** The text one character becomes. *)
Definition escape_char (c : Ascii.ascii) : string :=
  if Ascii.eqb c "&"%char then "&amp;"
  else if Ascii.eqb c "<"%char then "&lt;"
  else if Ascii.eqb c ">"%char then "&gt;"
  else if Ascii.eqb c quot then "&quot;"
  else if Ascii.eqb c apos then "&#039;"
  else String c "".

Fixpoint escape_chars (s : string) : string :=
  match s with
  | EmptyString => EmptyString
  | String c s' => escape_char c +:+ escape_chars s'
  end.

(** A reader of escaped text (not in the source): an entity is read back as
    its character, any other character as itself. *)
Definition entities : list (string * Ascii.ascii) :=
  [ ("&amp;", "&"%char); ("&lt;", "<"%char); ("&gt;", ">"%char);
    ("&quot;", quot); ("&#039;", apos) ].

Definition read_entity (s : string) : option (Ascii.ascii * string) :=
  foldr (λ e acc, match drop_prefix e.1 s with
                  | Some r => Some (e.2, r)
                  | None => acc
                  end) None entities.

Fixpoint unescape (fuel : nat) (s : string) : string :=
  match fuel with
  | O => s
  | S fuel' =>
      match s with
      | EmptyString => EmptyString
      | String c s' =>
          match read_entity s with
          | Some (x, r) => String x (unescape fuel' r)
          | None => String c (unescape fuel' s')
          end
      end
  end.

Definition unescapeHtml (s : string) : string := unescape (String.length s) s.

(** ** Sessions *)

(** The same world when the host clock shows the date [d]. *)
Definition at_date (d : string) (w : World) : World :=
  {| state := state w; localStorage := localStorage w; now := d;
     random := random w; draws := draws w |}.

(** The page is loaded again: the script starts from its initial state and
    the storage is what the last session left. *)
Definition reload (w : World) : World := with_state initial_state w.

(** What is stored is what is in memory. *)
Definition in_sync (w : World) : Prop :=
  head (localStorage w) = Some (JSON_stringify (state w)).


(** The texts of the routine. *)
Definition routine_texts (w : World) : list string :=
  map RoutineTemplate.text (dailyRoutine (state w)).

(** What identifies a task apart from its completion flag. *)
Definition task_key (t : Task.t) : string * string * string * string :=
  (Task.id t, Task.text t, Task.type t, Task.dateAdded t).

(** ** Example worlds *)

(** A stand-in for the host's random source: draw [k] yields the [k]-th
    lower-case letter. *)
Definition example_random (k : nat) : string :=
  String (Ascii.ascii_of_nat (97 + k)) "".

Definition buy_milk : Task.t :=
  {| Task.id := "t1"; Task.text := "Buy milk"; Task.completed := true;
     Task.type := "extra"; Task.dateAdded := "Mon Jan 01 2024" |}.

Definition stretch : RoutineTemplate.t :=
  {| RoutineTemplate.id := "r1"; RoutineTemplate.text := "Stretch";
     RoutineTemplate.type := "daily" |}.

(** The scenario of the specification, section 8: yesterday's state, opened
    on Tuesday. *)
Definition monday_state : AppState :=
  {| tasks := [buy_milk]; dailyRoutine := [stretch];
     settings := settings initial_state;
     lastOpenDate := Some "Mon Jan 01 2024" |}.

Definition tuesday_world : World :=
  {| state := monday_state; localStorage := [JSON_stringify monday_state];
     now := "Tue Jan 02 2024"; random := example_random; draws := 0 |}.

(** The same state, opened again on Monday. *)
Definition monday_world : World :=
  {| state := monday_state; localStorage := [JSON_stringify monday_state];
     now := "Mon Jan 01 2024"; random := example_random; draws := 0 |}.

(** The first start of the script on a fresh browser profile. *)
Definition fresh_world : World :=
  {| state := initial_state; localStorage := [];
     now := "Tue Jan 02 2024"; random := example_random; draws := 0 |}.

(** The world [init] leaves on a fresh profile. *)
Definition started_world : World := firstRun_world fresh_world.

(** A profile whose stored text is not JSON. *)
Definition broken_world : World :=
  {| state := initial_state; localStorage := [NotJson "{"];
     now := "Tue Jan 02 2024"; random := example_random; draws := 0 |}.

(** A blob written before [dailyRoutine] existed: the key is absent. *)
Definition legacy_saved : Saved :=
  {| saved_tasks := Some [buy_milk];
     saved_dailyRoutine := None;
     saved_settings := Some (settings initial_state);
     saved_lastOpenDate := Some (Some "Mon Jan 01 2024") |}.

Definition legacy_world : World :=
  {| state := initial_state; localStorage := [Json legacy_saved];
     now := "Mon Jan 01 2024"; random := example_random; draws := 0 |}.

(** A stored state without [lastOpenDate] and without [settings]. *)
Definition undated_saved : Saved :=
  {| saved_tasks := Some [buy_milk];
     saved_dailyRoutine := Some (Some [stretch]);
     saved_settings := None;
     saved_lastOpenDate := None |}.

Definition undated_world : World :=
  {| state := initial_state; localStorage := [Json undated_saved];
     now := "Mon Jan 01 2024"; random := example_random; draws := 0 |}.

(** ** Running the computations *)

Lemma bind_run {A B} (m : Js A) (k : A → Js B) w :
  (m ≫= k) w = match m w with
               | Return a w' => k a w'
               | Throw e w' => Throw e w'
               end.
Proof. reflexivity. Qed.

(** Runs the primitive steps at the head of a computation. *)
Ltac js_run :=
  unfold saveState, renderTasks, renderDailySettings, applySettings,
    updateTime, setupEventListeners, feather_replace, setInterval_updateTime;
  repeat first
    [ rewrite bind_run
    | progress cbn [get_state modify_state toDateString getItem setItem
                    generateId throw mret Js_ret] ].

(** *** The host functions on examples *)

Example trim_spaces : trim "  Buy milk " = "Buy milk".
Proof. reflexivity. Qed.

Example trim_blank : trim (utf8 [32; 9; 194; 160; 10]%nat) = "".
Proof. reflexivity. Qed.

Example trim_inner : trim "a  b" = "a  b".
Proof. reflexivity. Qed.

Example splice1_examples :
  splice1 ["a"; "b"; "c"] 1 = ["a"; "c"] ∧
  splice1 ["a"; "b"; "c"] 3 = ["a"; "b"; "c"] ∧
  splice1 ["a"; "b"; "c"] (-1) = ["a"; "b"] ∧
  splice1 ["a"; "b"; "c"] (-7) = ["b"; "c"].
Proof. by split_and!. Qed.

Example indexOf_examples :
  indexOf ["Month"; "MM/DD"; "DD/MM"] "DD/MM" = 2 ∧
  indexOf ["Month"; "MM/DD"; "DD/MM"] "ISO" = -1.
Proof. by split. Qed.

Lemma advance_0 w : advance 0 w = w.
Proof. by destruct w. Qed.

Lemma advance_advance n m w : advance n (advance m w) = advance (n + m) w.
Proof. unfold advance; simpl. by rewrite Nat.add_assoc. Qed.

Lemma fresh_ids_S w n :
  fresh_ids w (S n) = ("_" +:+ random w (draws w)) :: fresh_ids (advance 1 w) n.
Proof.
  unfold fresh_ids; simpl. f_equal.
  rewrite <- seq_shift, map_map. apply map_ext; intros k.
  by rewrite Nat.add_succ_r.
Qed.

Lemma length_fresh_ids w n : length (fresh_ids w n) = n.
Proof. unfold fresh_ids. by rewrite length_map, length_seq. Qed.

Lemma length_instantiate d r ids :
  length ids = length r → length (instantiate d r ids) = length r.
Proof. intros H. unfold instantiate. rewrite length_zip_with. lia. Qed.

(** The three [map] calls of the source draw one identifier per template,
    in routine order. *)
Lemma mapM_spread d r w :
  mapM (λ t, i ← generateId; mret (spread_template t i d)) r w
  = Return (instantiate d r (fresh_ids w (length r))) (advance (length r) w).
Proof.
  revert w. induction r as [|t r IH]; intros w.
  - simpl. by rewrite advance_0.
  - cbn [mapM length]. rewrite fresh_ids_S, bind_run, bind_run.
    cbn [generateId mret Js_ret]. rewrite bind_run, IH.
    rewrite advance_advance. by rewrite Nat.add_1_r.
Qed.

Lemma performDailyReset_run d w :
  performDailyReset d w = Return tt (reset_world d w).
Proof.
  unfold performDailyReset. js_run. by rewrite mapM_spread.
Qed.

Lemma checkMidnightReset_fires w :
  lastOpenDate (state w) ≠ Some (now w) →
  checkMidnightReset w = Return tt (reset_world (now w) w).
Proof.
  intros H. unfold checkMidnightReset. js_run.
  rewrite bool_decide_eq_false_2 by done. simpl.
  apply performDailyReset_run.
Qed.

Lemma checkMidnightReset_skips w :
  lastOpenDate (state w) = Some (now w) →
  checkMidnightReset w = Return tt w.
Proof.
  intros H. unfold checkMidnightReset. js_run.
  by rewrite bool_decide_eq_true_2.
Qed.

Lemma hasDailyTasks_true l :
  hasDailyTasks l = true ↔ Exists (λ t, Task.type t = "daily") l.
Proof.
  unfold hasDailyTasks. rewrite existsb_exists, Exists_exists. split.
  - intros (t & Hin & Heq). exists t. split; [by apply list_elem_of_In|].
    by apply String.eqb_eq.
  - intros (t & Hin & Heq). exists t. split; [by apply list_elem_of_In|].
    by apply String.eqb_eq.
Qed.

Lemma hasDailyTasks_false l :
  hasDailyTasks l = false ↔ Forall (λ t, Task.type t ≠ "daily") l.
Proof.
  rewrite <- not_true_iff_false, hasDailyTasks_true.
  rewrite <- Forall_Exists_neg. reflexivity.
Qed.

Lemma ensureDailyTasks_fires w :
  hasDailyTasks (tasks (state w)) = false →
  dailyRoutine (state w) ≠ [] →
  ensureDailyTasks w = Return tt (backfill_world w).
Proof.
  intros Hno Hne. unfold ensureDailyTasks. js_run.
  fold (hasDailyTasks (tasks (state w))). rewrite Hno.
  replace (0 <? Z.of_nat (length (dailyRoutine (state w)))) with true.
  - cbn [negb andb]. js_run. rewrite mapM_spread. by js_run.
  - symmetry. apply Z.ltb_lt. destruct (dailyRoutine (state w)); [done|].
    simpl; lia.
Qed.

Lemma ensureDailyTasks_skips w :
  hasDailyTasks (tasks (state w)) = true ∨ dailyRoutine (state w) = [] →
  ensureDailyTasks w = Return tt w.
Proof.
  intros H. unfold ensureDailyTasks. js_run.
  fold (hasDailyTasks (tasks (state w))).
  destruct H as [-> | ->]; [done|]. simpl. by rewrite andb_false_r.
Qed.

Lemma reconcile_run w :
  reconcile w = match checkMidnightReset w with
                | Return _ w' => ensureDailyTasks w'
                | Throw e w' => Throw e w'
                end.
Proof.
  unfold reconcile. rewrite bind_run.
  destruct (checkMidnightReset w) as [[] w1|]; reflexivity.
Qed.

Lemma init_run w :
  init w = match loadState w with
           | Return _ w' => reconcile w'
           | Throw e w' => Throw e w'
           end.
Proof.
  unfold init. rewrite bind_run.
  destruct (loadState w) as [[] w1|]; [|reflexivity].
  rewrite reconcile_run, bind_run.
  destruct (checkMidnightReset w1) as [[] w2|]; [|reflexivity].
  rewrite bind_run. cbn [applySettings mret Js_ret]. rewrite bind_run.
  destruct (ensureDailyTasks w2) as [[] w3|]; reflexivity.
Qed.

Lemma instantiate_instances d r ids :
  length ids = length r → Forall2 (instance_of d) r (instantiate d r ids).
Proof.
  revert ids. induction r as [|t r IH]; intros [|i ids] Hlen; simplify_eq/=.
  - constructor.
  - constructor; [by repeat split | by apply IH].
Qed.

Lemma instantiate_ids d r ids :
  length ids = length r → map Task.id (instantiate d r ids) = ids.
Proof.
  revert ids. induction r as [|t r IH]; intros [|i ids] Hlen; simplify_eq/=.
  - done.
  - f_equal. by apply IH.
Qed.

Lemma instantiate_daily d r ids :
  routine_daily r → Forall (λ t, Task.type t = "daily") (instantiate d r ids).
Proof.
  intros Hr. revert ids. induction Hr as [|t r Ht Hr IH]; intros [|i ids]; simpl;
    constructor; [done | apply IH].
Qed.

Lemma instantiate_daily_fields d r ids :
  routine_daily r →
  Forall (λ t, Task.type t = "daily" ∧ Task.completed t = false ∧
               Task.dateAdded t = d) (instantiate d r ids).
Proof.
  intros Hr. revert ids. induction Hr as [|t r Ht Hr IH]; intros [|i ids]; simpl;
    constructor; [done | apply IH].
Qed.

Lemma hasDailyTasks_instantiate d r ids :
  routine_daily r → r ≠ [] → length ids = length r →
  hasDailyTasks (instantiate d r ids) = true.
Proof.
  intros Hr Hne Hlen. destruct r as [|t r]; [done|].
  destruct ids as [|i ids]; [done|]. simpl.
  apply Forall_cons in Hr as [-> _]. done.
Qed.

(** After a reset, a routine whose templates are all of type [daily] leaves
    nothing for the backfill to do. *)
Lemma ensureDailyTasks_after_reset d w :
  routine_daily (dailyRoutine (state w)) →
  ensureDailyTasks (reset_world d w) = Return tt (reset_world d w).
Proof.
  intros Hr. apply ensureDailyTasks_skips. simpl.
  destruct (decide (dailyRoutine (state w) = [])) as [|Hne]; [by right|].
  left. apply hasDailyTasks_instantiate; [done..|]. apply length_fresh_ids.
Qed.

(** *** loadState *)

Lemma loadState_firstRun_run w :
  loadState_firstRun w = Return tt (firstRun_world w).
Proof.
  unfold loadState_firstRun. js_run.
  cbn [state dailyRoutine set_lastOpenDate set_dailyRoutine].
  rewrite mapM_spread. by js_run.
Qed.

Lemma loadState_absent w :
  head (localStorage w) = None ∨ head (localStorage w) = Some (NotJson "") →
  loadState w = Return tt (firstRun_world w).
Proof.
  intros H. unfold loadState. js_run.
  destruct H as [-> | ->]; apply loadState_firstRun_run.
Qed.

Lemma loadState_unparseable w raw :
  head (localStorage w) = Some (NotJson raw) → raw ≠ "" →
  loadState w = Throw SyntaxError w.
Proof.
  intros H Hraw. unfold loadState. js_run. rewrite H.
  cbn [blob_truthy]. rewrite bool_decide_eq_false_2 by done. reflexivity.
Qed.

Lemma loadState_parsed w saved :
  head (localStorage w) = Some (Json saved) →
  loadState w = Return tt (with_state (loaded_state (state w) saved) w).
Proof.
  intros H. unfold loadState. js_run. rewrite H.
  cbn [blob_truthy JSON_parse]. js_run. reflexivity.
Qed.

(** On a stored state without the key [dailyRoutine], the routine after
    [loadState] is the routine the process had in memory. *)
Lemma loadState_routine_absent w saved :
  head (localStorage w) = Some (Json saved) →
  saved_dailyRoutine saved = None →
  ∃ w', loadState w = Return tt w' ∧
        dailyRoutine (state w') = dailyRoutine (state w).
Proof.
  intros H Habs. rewrite (loadState_parsed w saved H).
  eexists; split; [reflexivity|]. simpl. by rewrite Habs.
Qed.

(** The merge fires for the value [null], and leaves [tasks] as loaded. *)
Lemma loadState_routine_null w saved :
  head (localStorage w) = Some (Json saved) →
  saved_dailyRoutine saved = Some None →
  ∃ w', loadState w = Return tt w' ∧
        dailyRoutine (state w') = DEFAULT_DAILY_TASKS ∧
        tasks (state w') = default (tasks (state w)) (saved_tasks saved).
Proof.
  intros H Hnull. rewrite (loadState_parsed w saved H).
  eexists; split; [reflexivity|]. simpl. by rewrite Hnull.
Qed.

(** *** The actions, run *)

Lemma updateDailyTask_blank w index newText :
  trim newText = "" → updateDailyTask index newText w = Return tt w.
Proof. intros H. unfold updateDailyTask, truthy. by rewrite H. Qed.

Lemma updateDailyTask_undefined w index newText :
  trim newText ≠ "" →
  at_index (dailyRoutine (state w)) index = None →
  updateDailyTask index newText w = Throw TypeError w.
Proof.
  intros H Hidx. unfold updateDailyTask, truthy.
  rewrite bool_decide_eq_false_2 by done. cbn [negb]. js_run. by rewrite Hidx.
Qed.

Lemma updateDailyTask_defined w index newText t :
  trim newText ≠ "" →
  at_index (dailyRoutine (state w)) index = Some t →
  updateDailyTask index newText w
  = Return tt (saved_world
      (set_dailyRoutine (<[Z.to_nat index := set_text (trim newText) t]>
                           (dailyRoutine (state w))) (state w)) w).
Proof.
  intros H Hidx. unfold updateDailyTask, truthy.
  rewrite bool_decide_eq_false_2 by done. cbn [negb]. js_run. rewrite Hidx.
  by js_run.
Qed.

Lemma removeDailyTask_run w index :
  removeDailyTask index w
  = Return tt (saved_world
      (set_dailyRoutine (splice1 (dailyRoutine (state w)) index) (state w)) w).
Proof. unfold removeDailyTask. by js_run. Qed.

Lemma at_index_Some {A} (a : list A) index x :
  at_index a index = Some x ↔ 0 ≤ index ∧ a !! Z.to_nat index = Some x.
Proof.
  unfold at_index. case_bool_decide; [tauto|].
  split; [done | intros [? _]; lia].
Qed.

Lemma at_index_in_range {A} (a : list A) index :
  is_Some (at_index a index) ↔ 0 ≤ index < Z.of_nat (length a).
Proof.
  unfold at_index. case_bool_decide as H0.
  - rewrite lookup_lt_is_Some. lia.
  - split; [by intros [? ?] | lia].
Qed.

Lemma at_index_None {A} (a : list A) index :
  at_index a index = None ↔ ¬ (0 ≤ index < Z.of_nat (length a)).
Proof.
  rewrite <- at_index_in_range, <- not_eq_None_Some. split; [tauto|].
  destruct (at_index a index); [|done]. intros H. by destruct H.
Qed.

Lemma toggleTask_no_match w id :
  list_find (λ t, Task.id t = id) (tasks (state w)) = None →
  toggleTask id w = Return tt w.
Proof. intros H. unfold toggleTask. js_run. by rewrite H. Qed.

Lemma toggleTask_match w id i t :
  list_find (λ t, Task.id t = id) (tasks (state w)) = Some (i, t) →
  toggleTask id w
  = Return tt (saved_world
      (set_tasks (<[i := flip_completed t]> (tasks (state w))) (state w)) w).
Proof. intros H. unfold toggleTask. js_run. rewrite H. by js_run. Qed.

Lemma list_find_middle {A} (P : A → Prop) `{∀ x, Decision (P x)} pre x post :
  Forall (λ y, ¬ P y) pre → P x →
  list_find P (pre ++ x :: post) = Some (length pre, x).
Proof.
  intros Hpre Hx. apply list_find_Some. split_and!.
  - by apply list_lookup_middle.
  - done.
  - intros j y Hj Hlt. rewrite lookup_app_l in Hj by done.
    by eapply Forall_lookup_1 in Hpre.
Qed.

Lemma insert_middle {A} (pre : list A) x y post :
  <[length pre := y]> (pre ++ x :: post) = pre ++ y :: post.
Proof.
  replace (length pre) with (length pre + 0)%nat by lia.
  by rewrite insert_app_r.
Qed.

Lemma reconcile_returns w :
  ∃ w', reconcile w = Return tt w' ∧
        dailyRoutine (state w') = dailyRoutine (state w).
Proof.
  rewrite reconcile_run.
  assert (Hens : ∀ v, ∃ v', ensureDailyTasks v = Return tt v' ∧
                            dailyRoutine (state v') = dailyRoutine (state v)).
  { intros v. destruct (hasDailyTasks (tasks (state v))) eqn:Hhas.
    - exists v. split; [|done]. apply ensureDailyTasks_skips. by left.
    - destruct (decide (dailyRoutine (state v) = [])) as [Hnil|Hne].
      + exists v. split; [|done]. apply ensureDailyTasks_skips. by right.
      + exists (backfill_world v). split; [|done].
        by apply ensureDailyTasks_fires. }
  destruct (decide (lastOpenDate (state w) = Some (now w))) as [Heq|Hneq].
  - rewrite checkMidnightReset_skips by done. apply Hens.
  - rewrite checkMidnightReset_fires by done.
    destruct (Hens (reset_world (now w) w)) as (v' & -> & Hr). by exists v'.
Qed.

Lemma addTask_routine w text :
  dailyRoutine (state (world_of (addTask text w))) = dailyRoutine (state w).
Proof.
  unfold addTask. destruct (negb (truthy (trim text))); [done|]. by js_run.
Qed.

Lemma toggleTask_routine w id :
  dailyRoutine (state (world_of (toggleTask id w))) = dailyRoutine (state w).
Proof.
  destruct (list_find (λ t, Task.id t = id) (tasks (state w)))
    as [[i t]|] eqn:Hfind.
  - by rewrite (toggleTask_match _ _ i t).
  - by rewrite toggleTask_no_match.
Qed.

Lemma updateDailyTask_length w index newText :
  length (dailyRoutine (state (world_of (updateDailyTask index newText w))))
  = length (dailyRoutine (state w)).
Proof.
  destruct (decide (trim newText = "")) as [Hb|Hb].
  - by rewrite updateDailyTask_blank.
  - destruct (at_index (dailyRoutine (state w)) index) as [t|] eqn:Hidx.
    + rewrite (updateDailyTask_defined _ _ _ t) by done. simpl.
      by rewrite length_insert.
    + by rewrite updateDailyTask_undefined.
Qed.

Lemma addDailyTemplate_routine w :
  dailyRoutine (state (world_of (addDailyTemplate w)))
  = dailyRoutine (state w)
    ++ [RoutineTemplate.mk ("_" +:+ random w (draws w)) "" "daily"].
Proof. unfold addDailyTemplate. by js_run. Qed.

Lemma length_delete_lower {A} (l : list A) i :
  (length l - 1 ≤ length (delete i l))%nat.
Proof.
  revert i. induction l as [|x l IH]; intros [|i]; simpl; try lia.
  specialize (IH i). lia.
Qed.

Lemma removeDailyTask_length w index :
  (length (dailyRoutine (state w)) - 1
   ≤ length (dailyRoutine (state (world_of (removeDailyTask index w)))))%nat.
Proof.
  rewrite removeDailyTask_run. simpl. apply length_delete_lower.
Qed.



Lemma nonempty_length {A} (l : list A) : l ≠ [] ↔ (0 < length l)%nat.
Proof. destruct l; simpl; split; (done || lia). Qed.

(** *** Identifiers

    [fresh_ids w n] is what [n] successive calls of [generateId] return, and
    the identifiers are pairwise distinct as long as the random source does
    not repeat itself. *)

Lemma generateId_n w n :
  mapM (λ _ : unit, generateId) (replicate n ()) w
  = Return (fresh_ids w n) (advance n w).
Proof.
  revert w. induction n as [|n IH]; intros w.
  - simpl. by rewrite advance_0.
  - cbn [replicate mapM]. rewrite fresh_ids_S, bind_run.
    cbn [generateId]. rewrite bind_run, IH.
    cbn [mret Js_ret]. rewrite advance_advance. by rewrite Nat.add_1_r.
Qed.

Lemma fresh_ids_NoDup w n :
  (∀ i j, (i < n)%nat → (j < n)%nat →
          random w (i + draws w) = random w (j + draws w) → i = j) →
  NoDup (fresh_ids w n).
Proof.
  intros Hinj. unfold fresh_ids.
  change (map ?f ?l) with (f <$> l).
  apply NoDup_fmap_2_strong; [|apply NoDup_seq].
  intros i j Hi%elem_of_seq Hj%elem_of_seq Heq.
  apply Hinj; [lia..|]. by simplify_eq.
Qed.

(** *** Startup on a state that an earlier session persisted *)

(** What [saveState] wrote is what the next [loadState] assigns. *)
Lemma loadState_saved w st :
  head (localStorage w) = Some (JSON_stringify st) →
  loadState w = Return tt (with_state st w).
Proof.
  intros H. rewrite (loadState_parsed w _ H). f_equal. f_equal. by destruct st.
Qed.

Lemma init_persisted w st :
  head (localStorage w) = Some (JSON_stringify st) →
  init w = reconcile (with_state st w).
Proof. intros H. by rewrite init_run, (loadState_saved w st H). Qed.

(** A second start on the same day, from what the first start left in
    storage, ends with the tasks of the first. *)
Lemma init_twice_same_day w st :
  head (localStorage w) = Some (JSON_stringify st) →
  lastOpenDate st = Some (now w) →
  routine_daily (dailyRoutine st) →
  ∃ w1, init w = Return tt w1 ∧
        init (with_state initial_state w1) = Return tt w1.
Proof.
  intros Hhead Hdate Hr. rewrite (init_persisted w st Hhead).
  set (v := with_state st w).
  assert (Hv : head (localStorage v) = Some (JSON_stringify (state v))) by done.
  destruct (hasDailyTasks (tasks (state v))) eqn:Hhas;
    [|destruct (decide (dailyRoutine (state v) = [])) as [Hnil|Hne]].
  - assert (Hrec : reconcile v = Return tt v).
    { rewrite reconcile_run, checkMidnightReset_skips by done.
      apply ensureDailyTasks_skips. by left. }
    exists v. split; [done|].
    rewrite (init_persisted _ (state v)) by done.
    change (with_state (state v) (with_state initial_state v)) with v. done.
  - assert (Hrec : reconcile v = Return tt v).
    { rewrite reconcile_run, checkMidnightReset_skips by done.
      apply ensureDailyTasks_skips. by right. }
    exists v. split; [done|].
    rewrite (init_persisted _ (state v)) by done.
    change (with_state (state v) (with_state initial_state v)) with v. done.
  - exists (backfill_world v). split.
    + rewrite reconcile_run, checkMidnightReset_skips by done.
      by apply ensureDailyTasks_fires.
    + rewrite (init_persisted _ (backfill_state v)) by done.
      change (with_state (backfill_state v)
                (with_state initial_state (backfill_world v)))
        with (backfill_world v).
      rewrite reconcile_run, checkMidnightReset_skips by done.
      apply ensureDailyTasks_skips. left. simpl.
      unfold hasDailyTasks. rewrite existsb_app.
      fold (hasDailyTasks (instantiate (now w) (dailyRoutine st)
              (fresh_ids v (length (dailyRoutine st))))).
      rewrite hasDailyTasks_instantiate; [done..|]. apply length_fresh_ids.
Qed.

(** *** The data-model constraint on templates is an invariant

    Every template the program makes has type [daily]: the defaults, and the
    ones [addDailyTemplate] appends.  No action changes the type of a
    template. *)

Lemma routine_daily_default : routine_daily DEFAULT_DAILY_TASKS.
Proof. repeat constructor. Qed.

Lemma routine_daily_preserved (a : Action) w :
  routine_daily (dailyRoutine (state w)) →
  routine_daily (dailyRoutine (state (world_of (run a w)))).
Proof.
  intros Hr. destruct a as [text|id|index newText|index| | | | |n|c]; cbn [run].
  - by rewrite addTask_routine.
  - by rewrite toggleTask_routine.
  - destruct (decide (trim newText = "")) as [Hb|Hb].
    { by rewrite updateDailyTask_blank. }
    destruct (at_index (dailyRoutine (state w)) index) as [t|] eqn:Hidx.
    + rewrite (updateDailyTask_defined _ _ _ t) by done. simpl.
      apply Forall_insert; [done|]. simpl.
      apply at_index_Some in Hidx as [_ Hidx].
      by eapply Forall_lookup_1 in Hr.
    + by rewrite updateDailyTask_undefined.
  - rewrite removeDailyTask_run. simpl. by apply Forall_delete.
  - rewrite addDailyTemplate_routine. apply Forall_app. split; [done|].
    by repeat constructor.
  - unfold resetDailyTasks. js_run. by rewrite performDailyReset_run.
  - unfold onTimeDisplayClick. by js_run.
  - unfold onDateDisplayClick. by js_run.
  - unfold onFontBtnClick. by js_run.
  - unfold onColorBtnClick. by js_run.
Qed.

Lemma routine_daily_reconcile w :
  routine_daily (dailyRoutine (state w)) →
  routine_daily (dailyRoutine (state (world_of (reconcile w)))).
Proof.
  intros Hr. destruct (reconcile_returns w) as (w' & -> & Heq). simpl.
  by rewrite Heq.
Qed.

(** ** Properties *)

(** C1 (P2, reset destructiveness).  When [lastOpenDate] is not today's date
    and the routine is one of daily templates (the data model), the startup
    reconciliation replaces [tasks] by exactly one task per entry of the
    current [dailyRoutine], in routine order: the text is the template's, the
    identifier is the next one [generateId] draws, the task is not completed,
    is dated today and has type [daily].  No task that was completed or extra
    is left, [lastOpenDate] becomes today, the new state is persisted, and the
    backfill that follows the reset adds nothing. *)
Theorem reset_replaces_tasks (w : World) :
  lastOpenDate (state w) ≠ Some (now w) →
  routine_daily (dailyRoutine (state w)) →
  ∃ w',
    checkMidnightReset w = Return tt w' ∧
    reconcile w = Return tt w' ∧
    Forall2 (instance_of (now w)) (dailyRoutine (state w)) (tasks (state w')) ∧
    map Task.id (tasks (state w')) = fresh_ids w (length (dailyRoutine (state w))) ∧
    Forall (λ t, Task.type t = "daily" ∧ Task.completed t = false ∧
                 Task.dateAdded t = now w) (tasks (state w')) ∧
    length (tasks (state w')) = length (dailyRoutine (state w)) ∧
    (∀ t, t ∈ tasks (state w) →
          Task.completed t = true ∨ Task.type t = "extra" →
          t ∉ tasks (state w')) ∧
    lastOpenDate (state w') = Some (now w) ∧
    dailyRoutine (state w') = dailyRoutine (state w) ∧
    localStorage w' = JSON_stringify (state w') :: localStorage w.
Proof.
  intros Hdate Hr. exists (reset_world (now w) w).
  pose proof (length_fresh_ids w (length (dailyRoutine (state w)))) as Hlen.
  assert (Hinst := instantiate_instances (now w) _ _ Hlen).
  assert (Hnew := instantiate_daily_fields (now w) _
                    (fresh_ids w (length (dailyRoutine (state w)))) Hr).
  split_and!.
  - by apply checkMidnightReset_fires.
  - rewrite reconcile_run, checkMidnightReset_fires by done.
    by apply ensureDailyTasks_after_reset.
  - done.
  - by apply instantiate_ids.
  - done.
  - simpl. by apply length_instantiate.
  - intros t _ Hold Hin. simpl in Hin.
    rewrite Forall_forall in Hnew. destruct (Hnew t Hin) as (Hty & Hc & _).
    destruct Hold as [Hold|Hold]; congruence.
  - done.
  - done.
  - done.
Qed.

Lemma reset_replaces_tasks_witness :
  lastOpenDate (state tuesday_world) ≠ Some (now tuesday_world) ∧
  routine_daily (dailyRoutine (state tuesday_world)) ∧
  ∃ w', reconcile tuesday_world = Return tt w' ∧
        tasks (state w') =
          [ {| Task.id := "_a"; Task.text := "Stretch"; Task.completed := false;
               Task.type := "daily"; Task.dateAdded := "Tue Jan 02 2024" |} ] ∧
        lastOpenDate (state w') = Some "Tue Jan 02 2024".
Proof.
  assert (H1 : lastOpenDate (state tuesday_world) ≠ Some (now tuesday_world))
    by (vm_compute; discriminate).
  assert (H2 : routine_daily (dailyRoutine (state tuesday_world)))
    by (repeat constructor).
  split; [exact H1|]. split; [exact H2|].
  destruct (reset_replaces_tasks tuesday_world H1 H2)
    as (w' & Hreset & Hrec & _ & _ & _ & _ & _ & Hdate & _).
  exists w'. split; [exact Hrec|].
  rewrite checkMidnightReset_fires in Hreset by exact H1.
  injection Hreset as <-. split; reflexivity.
Defined.

(** C2, as stated, fails: a stored text that [JSON.parse] rejects makes
    [loadState] throw; [init] does not catch the exception, and the first-run
    branch is not taken. *)
Lemma malformed_blob_is_fatal :
  head (localStorage broken_world) = Some (NotJson "{") ∧
  loadState broken_world = Throw SyntaxError broken_world ∧
  init broken_world = Throw SyntaxError broken_world ∧
  loadState broken_world ≠ Return tt (firstRun_world broken_world).
Proof. split_and!; [reflexivity..|discriminate]. Qed.

(** C2, amended.  What [loadState] does with a stored blob [b]:
    - the empty text is falsy and is handled as absent state, by the
      first-run branch;
    - any other text that does not parse makes [loadState], and [init] with
      it, throw the SyntaxError of [JSON.parse]; the world is then as it was:
      the in-memory defaults are intact and nothing is written;
    - a text that parses is never rejected: the keys it holds are copied over
      the in-memory state without any check, a missing key leaves the
      in-memory field, and the first-run branch is not taken. *)
Theorem load_does_not_recover (w : World) (b : Blob) :
  head (localStorage w) = Some b →
  match b with
  | NotJson raw =>
      if bool_decide (raw = "")
      then loadState w = Return tt (firstRun_world w)
      else loadState w = Throw SyntaxError w ∧ init w = Throw SyntaxError w
  | Json saved =>
      loadState w = Return tt (with_state (loaded_state (state w) saved) w)
  end.
Proof.
  intros H. destruct b as [raw|saved].
  - case_bool_decide as Hraw.
    + subst raw. apply loadState_absent. by right.
    + assert (Hload := loadState_unparseable w raw H Hraw).
      split; [done|]. by rewrite init_run, Hload.
  - by apply loadState_parsed.
Qed.

Lemma load_does_not_recover_witness :
  head (localStorage broken_world) = Some (NotJson "{") ∧
  loadState broken_world = Throw SyntaxError broken_world ∧
  init broken_world = Throw SyntaxError broken_world.
Proof.
  split; [reflexivity|].
  exact (load_does_not_recover broken_world (NotJson "{") eq_refl).
Defined.

(** C3 (P3, backfill preserves extras).  When [tasks] holds no task of type
    [daily], [dailyRoutine] is not empty and [lastOpenDate] is today, no reset
    fires and the backfill puts one new instance per template, in routine
    order (next identifiers of [generateId], not completed, dated today, the
    template's text and type, hence [daily] for a routine of daily
    templates), in front of the tasks that were there, which stay as they
    were and in their order.  The result is persisted. *)
Theorem backfill_prepends_daily (w : World) :
  Forall (λ t, Task.type t ≠ "daily") (tasks (state w)) →
  dailyRoutine (state w) ≠ [] →
  lastOpenDate (state w) = Some (now w) →
  ∃ w' new,
    reconcile w = Return tt w' ∧
    ensureDailyTasks w = Return tt w' ∧
    tasks (state w') = new ++ tasks (state w) ∧
    Forall2 (instance_of (now w)) (dailyRoutine (state w)) new ∧
    map Task.id new = fresh_ids w (length (dailyRoutine (state w))) ∧
    (routine_daily (dailyRoutine (state w)) →
       Forall (λ t, Task.type t = "daily") new) ∧
    dailyRoutine (state w') = dailyRoutine (state w) ∧
    lastOpenDate (state w') = lastOpenDate (state w) ∧
    localStorage w' = JSON_stringify (state w') :: localStorage w.
Proof.
  intros Hno Hne Hdate.
  pose proof (length_fresh_ids w (length (dailyRoutine (state w)))) as Hlen.
  apply hasDailyTasks_false in Hno.
  exists (backfill_world w),
    (instantiate (now w) (dailyRoutine (state w))
       (fresh_ids w (length (dailyRoutine (state w))))).
  split_and!; try done.
  - rewrite reconcile_run, checkMidnightReset_skips by done.
    by apply ensureDailyTasks_fires.
  - by apply ensureDailyTasks_fires.
  - by apply instantiate_instances.
  - by apply instantiate_ids.
  - intros Hr. by apply instantiate_daily.
Qed.

Lemma backfill_prepends_daily_witness :
  Forall (λ t, Task.type t ≠ "daily") (tasks (state monday_world)) ∧
  dailyRoutine (state monday_world) ≠ [] ∧
  lastOpenDate (state monday_world) = Some (now monday_world) ∧
  ∃ w', reconcile monday_world = Return tt w' ∧
        tasks (state w') =
          [ {| Task.id := "_a"; Task.text := "Stretch"; Task.completed := false;
               Task.type := "daily"; Task.dateAdded := "Mon Jan 01 2024" |};
            buy_milk ].
Proof.
  assert (H1 : Forall (λ t, Task.type t ≠ "daily") (tasks (state monday_world)))
    by (repeat constructor; vm_compute; discriminate).
  assert (H2 : dailyRoutine (state monday_world) ≠ []) by (vm_compute; discriminate).
  assert (H3 : lastOpenDate (state monday_world) = Some (now monday_world))
    by reflexivity.
  split_and!; [exact H1 | exact H2 | exact H3 |].
  destruct (backfill_prepends_daily monday_world H1 H2 H3)
    as (w' & new & Hrec & Hens & _).
  exists w'. split; [exact Hrec|].
  rewrite ensureDailyTasks_fires in Hens by (done || exact H2).
  by injection Hens as <-.
Defined.

(** C4 (P6, bootstrap from nothing).  With nothing stored, [init] seeds
    [dailyRoutine] with the three default templates, sets [lastOpenDate] to
    today, fills [tasks] with one instance per default template in template
    order (next identifiers of [generateId], not completed, dated today, type
    [daily]) and writes the resulting state to storage exactly once. *)
Theorem bootstrap_from_nothing (w : World) :
  localStorage w = [] →
  ∃ w',
    init w = Return tt w' ∧
    dailyRoutine (state w') = DEFAULT_DAILY_TASKS ∧
    DEFAULT_DAILY_TASKS ≠ [] ∧
    lastOpenDate (state w') = Some (now w) ∧
    Forall2 (instance_of (now w)) DEFAULT_DAILY_TASKS (tasks (state w')) ∧
    map Task.id (tasks (state w')) = fresh_ids w (length DEFAULT_DAILY_TASKS) ∧
    Forall (λ t, Task.type t = "daily" ∧ Task.completed t = false ∧
                 Task.dateAdded t = now w) (tasks (state w')) ∧
    localStorage w' = [JSON_stringify (state w')].
Proof.
  intros Hnone. exists (firstRun_world w).
  assert (Hd : routine_daily DEFAULT_DAILY_TASKS) by (repeat constructor).
  split_and!.
  - rewrite init_run, loadState_absent by (left; by rewrite Hnone).
    rewrite reconcile_run, checkMidnightReset_skips by done.
    apply ensureDailyTasks_skips. by left.
  - done.
  - done.
  - done.
  - by apply instantiate_instances.
  - by apply instantiate_ids.
  - by apply instantiate_daily_fields.
  - simpl. by rewrite Hnone.
Qed.

Lemma bootstrap_from_nothing_witness :
  localStorage fresh_world = [] ∧
  ∃ w', init fresh_world = Return tt w' ∧
        map Task.text (tasks (state w')) =
          ["Morning Stretch"; "Read 15 Mins"; "Clear Inbox"] ∧
        map Task.id (tasks (state w')) = ["_a"; "_b"; "_c"] ∧
        length (localStorage w') = 1%nat.
Proof.
  split; [reflexivity|].
  destruct (bootstrap_from_nothing fresh_world eq_refl) as (w' & Hinit & _).
  exists w'. split; [exact Hinit|].
  assert (Hrun : init fresh_world = Return tt (firstRun_world fresh_world))
    by reflexivity.
  rewrite Hrun in Hinit. injection Hinit as <-. split_and!; reflexivity.
Defined.

(** C5 (P1, idempotent reset-skip).  When [lastOpenDate] is today and the
    routine is one of daily templates (the data model), running the
    reconciliation twice in a row gives the same [tasks] both times: the
    second run neither resets nor backfills, and leaves the whole world as the
    first run left it. *)
Theorem reconcile_twice_same_day (w : World) :
  lastOpenDate (state w) = Some (now w) →
  routine_daily (dailyRoutine (state w)) →
  ∃ w1 w2,
    reconcile w = Return tt w1 ∧
    reconcile w1 = Return tt w2 ∧
    tasks (state w2) = tasks (state w1) ∧
    checkMidnightReset w1 = Return tt w1 ∧
    ensureDailyTasks w1 = Return tt w1 ∧
    w2 = w1.
Proof.
  intros Hdate Hr.
  destruct (hasDailyTasks (tasks (state w))) eqn:Hhas.
  - exists w, w.
    assert (Hrec : reconcile w = Return tt w).
    { rewrite reconcile_run, checkMidnightReset_skips by done.
      apply ensureDailyTasks_skips. by left. }
    split_and!; try done.
    + by apply checkMidnightReset_skips.
    + apply ensureDailyTasks_skips. by left.
  - destruct (decide (dailyRoutine (state w) = [])) as [Hnil|Hne].
    + exists w, w.
      assert (Hrec : reconcile w = Return tt w).
      { rewrite reconcile_run, checkMidnightReset_skips by done.
        apply ensureDailyTasks_skips. by right. }
      split_and!; try done.
      * by apply checkMidnightReset_skips.
      * apply ensureDailyTasks_skips. by right.
    + exists (backfill_world w), (backfill_world w).
      assert (Hskip : ensureDailyTasks (backfill_world w)
                      = Return tt (backfill_world w)).
      { apply ensureDailyTasks_skips. left. simpl.
        unfold hasDailyTasks. rewrite existsb_app.
        fold (hasDailyTasks (instantiate (now w) (dailyRoutine (state w))
                (fresh_ids w (length (dailyRoutine (state w)))))).
        rewrite hasDailyTasks_instantiate; [done..|]. apply length_fresh_ids. }
      assert (Hnoreset : checkMidnightReset (backfill_world w)
                         = Return tt (backfill_world w)).
      { by apply checkMidnightReset_skips. }
      split_and!; try done.
      * rewrite reconcile_run, checkMidnightReset_skips by done.
        by apply ensureDailyTasks_fires.
      * by rewrite reconcile_run, Hnoreset.
Qed.

Lemma reconcile_twice_same_day_witness :
  lastOpenDate (state monday_world) = Some (now monday_world) ∧
  routine_daily (dailyRoutine (state monday_world)) ∧
  ∃ w1, reconcile monday_world = Return tt w1 ∧
        reconcile w1 = Return tt w1 ∧
        length (tasks (state w1)) = 2%nat.
Proof.
  assert (H1 : lastOpenDate (state monday_world) = Some (now monday_world))
    by reflexivity.
  assert (H2 : routine_daily (dailyRoutine (state monday_world)))
    by (repeat constructor).
  split; [exact H1|]. split; [exact H2|].
  destruct (reconcile_twice_same_day monday_world H1 H2)
    as (w1 & w2 & Hrec1 & Hrec2 & _ & _ & _ & ->).
  exists w1. split; [exact Hrec1|]. split; [exact Hrec2|].
  assert (Hrun : reconcile monday_world = Return tt (backfill_world monday_world))
    by reflexivity.
  rewrite Hrun in Hrec1. by injection Hrec1 as <-.
Defined.

(** C6: the code does not do what the claim (and the comment "Merge defaults
    if missing") says.  On a stored state without the key [dailyRoutine], the
    spread keeps the in-memory [dailyRoutine], which is the empty array of
    the initial state; an array is truthy, so [!state.dailyRoutine] is false
    and the defaults are not merged.  [tasks] is left as loaded, and the
    routine is still empty when [init] is done. *)
Theorem legacy_routine_not_merged :
  saved_dailyRoutine legacy_saved = None ∧
  ∃ w',
    loadState legacy_world = Return tt w' ∧
    dailyRoutine (state w') = [] ∧
    dailyRoutine (state w') ≠ DEFAULT_DAILY_TASKS ∧
    tasks (state w') = [buy_milk] ∧
    init legacy_world = Return tt w'.
Proof.
  split; [reflexivity|].
  exists (with_state (loaded_state initial_state legacy_saved) legacy_world).
  split_and!; [reflexivity | reflexivity | discriminate | reflexivity | reflexivity].
Qed.

(** C7, as stated, fails: on a fresh profile [init] leaves the three default
    templates, and three clicks on the first delete button leave none. *)
Lemma routine_can_be_emptied :
  init fresh_world = Return tt started_world ∧
  dailyRoutine (state started_world) ≠ [] ∧
  ∃ w', (removeDailyTask 0;; removeDailyTask 0;; removeDailyTask 0) started_world
        = Return tt w' ∧
        dailyRoutine (state w') = [].
Proof.
  split; [reflexivity|]. split; [discriminate|].
  eexists. split; reflexivity.
Qed.

(** C7, amended.  [init] ends with a non-empty [dailyRoutine] when nothing
    was stored (the default set) and when the stored [dailyRoutine] is a
    non-empty array.  From then on every action but the removal of a template
    keeps [dailyRoutine] non-empty; a removal takes at most one template
    away, and may take the last one. *)
Theorem routine_nonempty_unless_removed (w : World) (a : Action) :
  (localStorage w = [] →
     ∃ w', init w = Return tt w' ∧ dailyRoutine (state w') ≠ []) ∧
  (∀ saved r, head (localStorage w) = Some (Json saved) →
     saved_dailyRoutine saved = Some (Some r) → r ≠ [] →
     ∃ w', init w = Return tt w' ∧ dailyRoutine (state w') ≠ []) ∧
  (dailyRoutine (state w) ≠ [] →
     match a with
     | RemoveDailyTask _ =>
         (length (dailyRoutine (state w)) - 1
          ≤ length (dailyRoutine (state (world_of (run a w)))))%nat
     | _ => dailyRoutine (state (world_of (run a w))) ≠ []
     end).
Proof.
  split_and!.
  - intros Hnone. rewrite init_run, loadState_absent by (left; by rewrite Hnone).
    destruct (reconcile_returns (firstRun_world w)) as (w' & Hrec & Hr).
    exists w'. split; [done|]. by rewrite Hr.
  - intros saved r Hhead Hsaved Hne.
    rewrite init_run, (loadState_parsed w saved Hhead).
    destruct (reconcile_returns (with_state (loaded_state (state w) saved) w))
      as (w' & Hrec & Hr).
    exists w'. split; [done|]. rewrite Hr. simpl. by rewrite Hsaved.
  - intros Hne. destruct a; cbn [run].
    + by rewrite addTask_routine.
    + by rewrite toggleTask_routine.
    + apply nonempty_length. rewrite updateDailyTask_length.
      by apply nonempty_length.
    + apply removeDailyTask_length.
    + rewrite addDailyTemplate_routine. by destruct (dailyRoutine (state w)).
    + unfold resetDailyTasks. js_run. by rewrite performDailyReset_run.
    + unfold onTimeDisplayClick. by js_run.
    + unfold onDateDisplayClick. by js_run.
    + unfold onFontBtnClick. by js_run.
    + unfold onColorBtnClick. by js_run.
Qed.

Lemma routine_nonempty_unless_removed_witness :
  localStorage fresh_world = [] ∧
  dailyRoutine (state started_world) ≠ [] ∧
  (∃ w', init fresh_world = Return tt w' ∧ dailyRoutine (state w') ≠ []) ∧
  (∃ w', init monday_world = Return tt w' ∧ dailyRoutine (state w') ≠ []) ∧
  dailyRoutine (state (world_of (run (UpdateDailyTask 0 "Walk") started_world))) ≠ [] ∧
  (length (dailyRoutine (state started_world)) - 1
   ≤ length (dailyRoutine (state (world_of (run (RemoveDailyTask 0) started_world)))))%nat.
Proof.
  assert (H1 : localStorage fresh_world = []) by reflexivity.
  assert (H2 : dailyRoutine (state started_world) ≠ []) by (vm_compute; discriminate).
  assert (H3 : [stretch] ≠ []) by discriminate.
  split; [exact H1|]. split; [exact H2|]. split; [|split; [|split]].
  - exact (proj1 (routine_nonempty_unless_removed fresh_world AddDailyTemplate) H1).
  - exact (proj1 (proj2 (routine_nonempty_unless_removed monday_world AddDailyTemplate))
             _ [stretch] eq_refl eq_refl H3).
  - exact (proj2 (proj2 (routine_nonempty_unless_removed started_world
                           (UpdateDailyTask 0 "Walk"))) H2).
  - exact (proj2 (proj2 (routine_nonempty_unless_removed started_world
                           (RemoveDailyTask 0))) H2).
Defined.

(** C8 (P4, template independence).  Editing the text of a routine template
    and removing a routine template change no field of the state but
    [dailyRoutine], whatever the index and the text and whether or not the
    call throws: every task keeps its identifier, text, completion flag and
    position. *)
Theorem routine_edits_leave_tasks (w : World) (index : Z) (newText : string) :
  (∃ r, state (world_of (updateDailyTask index newText w))
        = set_dailyRoutine r (state w)) ∧
  (∃ r, state (world_of (removeDailyTask index w))
        = set_dailyRoutine r (state w)) ∧
  tasks (state (world_of (updateDailyTask index newText w))) = tasks (state w) ∧
  tasks (state (world_of (removeDailyTask index w))) = tasks (state w).
Proof.
  assert (Hup : ∃ r, state (world_of (updateDailyTask index newText w))
                     = set_dailyRoutine r (state w)).
  { destruct (decide (trim newText = "")) as [Hb|Hb].
    - rewrite updateDailyTask_blank by done. exists (dailyRoutine (state w)).
      simpl. by destruct (state w).
    - destruct (at_index (dailyRoutine (state w)) index) as [t|] eqn:Hidx.
      + rewrite (updateDailyTask_defined _ _ _ t) by done. by eexists.
      + rewrite updateDailyTask_undefined by done.
        exists (dailyRoutine (state w)). simpl. by destruct (state w). }
  assert (Hrm : ∃ r, state (world_of (removeDailyTask index w))
                     = set_dailyRoutine r (state w)).
  { rewrite removeDailyTask_run. by eexists. }
  split_and!; [done | done | |].
  - destruct Hup as [r ->]. done.
  - destruct Hrm as [r ->]. done.
Qed.

(** C9 (P5, toggle non-reordering).  [toggleTask id] never throws.  When no
    task has the identifier [id] the world is left as it is.  Otherwise the
    first task that has it gets its [completed] flag negated, where it sits:
    the tasks before and after it, its other fields, the length of the list
    and the identifier at every position are unchanged. *)
Theorem toggleTask_flips_in_place (w : World) (id : string) :
  ∃ w',
    toggleTask id w = Return tt w' ∧
    length (tasks (state w')) = length (tasks (state w)) ∧
    map Task.id (tasks (state w')) = map Task.id (tasks (state w)) ∧
    (Forall (λ t, Task.id t ≠ id) (tasks (state w)) → w' = w) ∧
    (∀ pre t post,
       tasks (state w) = pre ++ t :: post →
       Forall (λ u, Task.id u ≠ id) pre →
       Task.id t = id →
       ∃ t', tasks (state w') = pre ++ t' :: post ∧
             Task.completed t' = negb (Task.completed t) ∧
             Task.id t' = Task.id t ∧ Task.text t' = Task.text t ∧
             Task.type t' = Task.type t ∧
             Task.dateAdded t' = Task.dateAdded t) ∧
    dailyRoutine (state w') = dailyRoutine (state w) ∧
    lastOpenDate (state w') = lastOpenDate (state w).
Proof.
  destruct (list_find (λ t, Task.id t = id) (tasks (state w)))
    as [[i t]|] eqn:Hfind.
  - eexists. split; [by apply toggleTask_match|].
    pose proof Hfind as (Hi & Hid & Hfirst)%list_find_Some.
    cbn [state saved_world set_tasks tasks dailyRoutine lastOpenDate].
    split_and!; try done.
    + by rewrite length_insert.
    + change (map Task.id) with (fmap (M:=list) Task.id).
      rewrite list_fmap_insert. apply list_insert_id.
      by rewrite list_lookup_fmap, Hi.
    + intros Hnone.
      assert (list_find (λ t, Task.id t = id) (tasks (state w)) = None)
        by (by apply list_find_None).
      congruence.
    + intros pre u post Htasks Hpre Hu.
      rewrite Htasks, (list_find_middle _ pre u post Hpre Hu) in Hfind.
      simplify_eq. exists (flip_completed t).
      rewrite Htasks, insert_middle. done.
  - exists w. split; [by apply toggleTask_no_match|].
    split_and!; try done.
    intros pre u post Htasks Hpre Hu.
    apply list_find_None in Hfind. rewrite Htasks in Hfind.
    apply Forall_app in Hfind as [_ Hfind].
    apply Forall_cons in Hfind as [Hfind _]. done.
Qed.

Lemma toggleTask_flips_in_place_witness :
  ∃ w', toggleTask "_b" started_world = Return tt w' ∧
        map Task.completed (tasks (state w')) = [false; true; false] ∧
        map Task.id (tasks (state w')) = ["_a"; "_b"; "_c"].
Proof.
  destruct (toggleTask_flips_in_place started_world "_b")
    as (w' & Hrun & _ & Hids & _ & Hflip & _).
  exists w'. split; [exact Hrun|]. split; [|exact Hids].
  destruct (Hflip
    [spread_template (RoutineTemplate.mk "dt1" "Morning Stretch" "daily")
       "_a" "Tue Jan 02 2024"]
    (spread_template (RoutineTemplate.mk "dt2" "Read 15 Mins" "daily")
       "_b" "Tue Jan 02 2024")
    [spread_template (RoutineTemplate.mk "dt3" "Clear Inbox" "daily")
       "_c" "Tue Jan 02 2024"]
    eq_refl) as (t' & Htasks & Hc & _).
  - repeat constructor. vm_compute. discriminate.
  - reflexivity.
  - rewrite Htasks. cbn [map app]. rewrite Hc. reflexivity.
Defined.




(** ** Further properties of the code *)

(** *** Adding tasks and templates *)

Lemma addTask_blank w text :
  trim text = "" → addTask text w = Return tt w.
Proof. intros H. unfold addTask, truthy. by rewrite H. Qed.

Lemma addTask_run w text :
  trim text ≠ "" →
  addTask text w
  = Return tt (saved_world
      (set_tasks (tasks (state w)
                  ++ [ {| Task.id := "_" +:+ random w (draws w);
                          Task.text := trim text; Task.completed := false;
                          Task.type := "extra"; Task.dateAdded := now w |} ])
                 (state w))
      (advance 1 w)).
Proof.
  intros H. unfold addTask, truthy.
  rewrite bool_decide_eq_false_2 by done. cbn [negb]. by js_run.
Qed.

Lemma addDailyTemplate_run w :
  addDailyTemplate w
  = Return tt (saved_world
      (set_dailyRoutine
         (dailyRoutine (state w)
          ++ [RoutineTemplate.mk ("_" +:+ random w (draws w)) "" "daily"])
         (state w))
      (advance 1 w)).
Proof. unfold addDailyTemplate. by js_run. Qed.

(** X1.  [addTask] ignores a text that is empty once trimmed: nothing is
    drawn, changed or written.  Any other text adds exactly one task, at the
    end of [tasks]: its text is the trimmed text (so never empty), its
    identifier the next one [generateId] draws, it is an extra task, not
    completed, dated today; the tasks that were there, the routine, the
    settings and [lastOpenDate] are as before, and the new state is
    persisted. *)
Theorem addTask_appends_trimmed (w : World) (text : string) :
  (trim text = "" → addTask text w = Return tt w) ∧
  (trim text ≠ "" →
   ∃ w' t,
     addTask text w = Return tt w' ∧
     tasks (state w') = tasks (state w) ++ [t] ∧
     Task.id t = "_" +:+ random w (draws w) ∧
     Task.text t = trim text ∧
     Task.text t ≠ "" ∧
     Task.completed t = false ∧
     Task.type t = "extra" ∧
     Task.dateAdded t = now w ∧
     dailyRoutine (state w') = dailyRoutine (state w) ∧
     settings (state w') = settings (state w) ∧
     lastOpenDate (state w') = lastOpenDate (state w) ∧
     draws w' = S (draws w) ∧
     localStorage w' = JSON_stringify (state w') :: localStorage w).
Proof.
  split; [apply addTask_blank|].
  intros H. eexists _, _. split; [by apply addTask_run|].
  by split_and!.
Qed.

Lemma addTask_appends_trimmed_witness :
  trim "   " = "" ∧
  trim " Call mum " ≠ "" ∧
  addTask "   " started_world = Return tt started_world ∧
  ∃ w', addTask " Call mum " started_world = Return tt w' ∧
        map Task.text (tasks (state w'))
        = ["Morning Stretch"; "Read 15 Mins"; "Clear Inbox"; "Call mum"].
Proof.
  assert (H1 : trim "   " = "") by reflexivity.
  assert (H2 : trim " Call mum " ≠ "") by (vm_compute; discriminate).
  destruct (addTask_appends_trimmed started_world "   ") as [Hblank _].
  destruct (addTask_appends_trimmed started_world " Call mum ") as [_ Hadd].
  split; [exact H1|]. split; [exact H2|]. split; [exact (Hblank H1)|].
  destruct (Hadd H2) as (w' & t & Hrun & Htasks & _ & Htext & _).
  exists w'. split; [exact Hrun|].
  rewrite Htasks, map_app. cbn [map]. rewrite Htext. reflexivity.
Defined.

(** X2.  The way the settings panel adds a template: [addDailyTemplate]
    appends a template of type [daily] with an empty text and the next
    identifier, and [updateDailyTask] on the index of that new, last entry
    then gives it the trimmed text.  [tasks] is not touched by either. *)
Theorem new_template_then_text (w : World) (newText : string) :
  trim newText ≠ "" →
  ∃ w1 w2,
    addDailyTemplate w = Return tt w1 ∧
    dailyRoutine (state w1)
    = dailyRoutine (state w)
      ++ [RoutineTemplate.mk ("_" +:+ random w (draws w)) "" "daily"] ∧
    updateDailyTask (Z.of_nat (length (dailyRoutine (state w)))) newText w1
    = Return tt w2 ∧
    dailyRoutine (state w2)
    = dailyRoutine (state w)
      ++ [RoutineTemplate.mk ("_" +:+ random w (draws w)) (trim newText) "daily"] ∧
    tasks (state w1) = tasks (state w) ∧
    tasks (state w2) = tasks (state w).
Proof.
  intros Hb. eexists _, _. split; [apply addDailyTemplate_run|].
  split; [done|]. split.
  - apply updateDailyTask_defined; [done|].
    apply at_index_Some. split; [lia|].
    rewrite Nat2Z.id. cbn [state saved_world set_dailyRoutine dailyRoutine].
    by apply list_lookup_middle.
  - cbn [state saved_world set_dailyRoutine dailyRoutine tasks].
    rewrite Nat2Z.id. split; [|done]. by rewrite insert_middle.
Qed.

Lemma new_template_then_text_witness :
  trim "Walk" ≠ "" ∧
  ∃ w1 w2,
    addDailyTemplate started_world = Return tt w1 ∧
    updateDailyTask 3 "Walk" w1 = Return tt w2 ∧
    map RoutineTemplate.text (dailyRoutine (state w2))
    = ["Morning Stretch"; "Read 15 Mins"; "Clear Inbox"; "Walk"].
Proof.
  assert (H : trim "Walk" ≠ "") by (vm_compute; discriminate).
  split; [exact H|].
  destruct (new_template_then_text started_world "Walk" H)
    as (w1 & w2 & Hadd & _ & Hup & Hr & _).
  exists w1, w2. split; [exact Hadd|]. split; [exact Hup|].
  rewrite Hr. reflexivity.
Defined.

(** X3.  No action but [addDailyTemplate] can leave a template with an empty
    text: when every template has a non-empty text, this is still so after
    any other action, whatever its arguments and whether or not it throws. *)
Theorem template_texts_stay_nonempty (a : Action) (w : World) :
  Forall (λ t, RoutineTemplate.text t ≠ "") (dailyRoutine (state w)) →
  a ≠ AddDailyTemplate →
  Forall (λ t, RoutineTemplate.text t ≠ "")
         (dailyRoutine (state (world_of (run a w)))).
Proof.
  intros Hr Ha. destruct a as [text|id|index newText|index| | | | |n|c]; cbn [run].
  - by rewrite addTask_routine.
  - by rewrite toggleTask_routine.
  - destruct (decide (trim newText = "")) as [Hb|Hb].
    { by rewrite updateDailyTask_blank. }
    destruct (at_index (dailyRoutine (state w)) index) as [t|] eqn:Hidx.
    + rewrite (updateDailyTask_defined _ _ _ t) by done. simpl.
      by apply Forall_insert.
    + by rewrite updateDailyTask_undefined.
  - rewrite removeDailyTask_run. simpl. by apply Forall_delete.
  - done.
  - unfold resetDailyTasks. js_run. by rewrite performDailyReset_run.
  - unfold onTimeDisplayClick. by js_run.
  - unfold onDateDisplayClick. by js_run.
  - unfold onFontBtnClick. by js_run.
  - unfold onColorBtnClick. by js_run.
Qed.

Lemma template_texts_stay_nonempty_witness :
  Forall (λ t, RoutineTemplate.text t ≠ "") (dailyRoutine (state started_world)) ∧
  UpdateDailyTask 1 "   " ≠ AddDailyTemplate ∧
  Forall (λ t, RoutineTemplate.text t ≠ "")
         (dailyRoutine (state (world_of (run (UpdateDailyTask 1 "   ") started_world)))).
Proof.
  assert (H1 : Forall (λ t, RoutineTemplate.text t ≠ "")
                      (dailyRoutine (state started_world)))
    by (repeat constructor; vm_compute; discriminate).
  assert (H2 : UpdateDailyTask 1 "   " ≠ AddDailyTemplate) by discriminate.
  split; [exact H1|]. split; [exact H2|].
  exact (template_texts_stay_nonempty _ _ H1 H2).
Defined.

(** *** Removing a template *)

(** X4.  [removeDailyTask index], for an index within the routine, takes out
    exactly the template at that index: the templates before it and after it
    stay, in their order, and the routine is one shorter.  [tasks] is
    unchanged and the new state is persisted. *)
Theorem removeDailyTask_in_range (w : World) (index : Z) :
  0 ≤ index < Z.of_nat (length (dailyRoutine (state w))) →
  ∃ w',
    removeDailyTask index w = Return tt w' ∧
    dailyRoutine (state w')
    = take (Z.to_nat index) (dailyRoutine (state w))
      ++ drop (S (Z.to_nat index)) (dailyRoutine (state w)) ∧
    S (length (dailyRoutine (state w'))) = length (dailyRoutine (state w)) ∧
    tasks (state w') = tasks (state w) ∧
    localStorage w' = JSON_stringify (state w') :: localStorage w.
Proof.
  intros Hrange. eexists. split; [apply removeDailyTask_run|].
  cbn [state saved_world set_dailyRoutine dailyRoutine tasks localStorage].
  assert (Hs : splice1 (dailyRoutine (state w)) index
               = delete (Z.to_nat index) (dailyRoutine (state w))).
  { unfold splice1. rewrite bool_decide_eq_false_2 by lia.
    f_equal. lia. }
  rewrite Hs. split_and!; try done.
  - apply delete_take_drop.
  - rewrite length_delete by (apply lookup_lt_is_Some; lia).
    assert (0 < length (dailyRoutine (state w)))%nat by lia. lia.
Qed.

Lemma removeDailyTask_in_range_witness :
  0 ≤ 1 < Z.of_nat (length (dailyRoutine (state started_world))) ∧
  ∃ w', removeDailyTask 1 started_world = Return tt w' ∧
        map RoutineTemplate.text (dailyRoutine (state w'))
        = ["Morning Stretch"; "Clear Inbox"].
Proof.
  assert (H : 0 ≤ 1 < Z.of_nat (length (dailyRoutine (state started_world))))
    by (simpl; lia).
  split; [exact H|].
  destruct (removeDailyTask_in_range started_world 1 H) as (w' & Hrun & Hr & _).
  exists w'. split; [exact Hrun|]. rewrite Hr. reflexivity.
Defined.

(** X5.  A negative index is not rejected by [removeDailyTask]: [splice]
    counts it from the end of the routine.  With [len] templates, an index
    [-k] for [1 <= k <= len] removes the template at position [len - k] (so
    [-1] removes the last one), and an index below [-len] removes the
    first. *)
Theorem removeDailyTask_negative (w : World) (index : Z) :
  index < 0 →
  ∃ w',
    removeDailyTask index w = Return tt w' ∧
    (- Z.of_nat (length (dailyRoutine (state w))) ≤ index →
     dailyRoutine (state w')
     = delete (Z.to_nat (Z.of_nat (length (dailyRoutine (state w))) + index))
              (dailyRoutine (state w)) ∧
     S (length (dailyRoutine (state w'))) = length (dailyRoutine (state w))) ∧
    (index < - Z.of_nat (length (dailyRoutine (state w))) →
     dailyRoutine (state w') = drop 1 (dailyRoutine (state w))) ∧
    tasks (state w') = tasks (state w).
Proof.
  intros Hneg. eexists. split; [apply removeDailyTask_run|].
  cbn [state saved_world set_dailyRoutine dailyRoutine tasks].
  unfold splice1. rewrite bool_decide_eq_true_2 by done.
  split_and!; try done.
  - intros Hlow. rewrite Z.max_l by lia. split; [done|].
    rewrite length_delete by (apply lookup_lt_is_Some; lia).
    assert (0 < length (dailyRoutine (state w)))%nat by lia. lia.
  - intros Hlow. rewrite Z.max_r by lia. simpl.
    by destruct (dailyRoutine (state w)).
Qed.

Lemma removeDailyTask_negative_witness :
  (-1) < 0 ∧
  - Z.of_nat (length (dailyRoutine (state started_world))) ≤ -1 ∧
  ∃ w', removeDailyTask (-1) started_world = Return tt w' ∧
        map RoutineTemplate.text (dailyRoutine (state w'))
        = ["Morning Stretch"; "Read 15 Mins"].
Proof.
  assert (H1 : (-1) < 0) by lia.
  assert (H2 : - Z.of_nat (length (dailyRoutine (state started_world))) ≤ -1)
    by (simpl; lia).
  split; [exact H1|]. split; [exact H2|].
  destruct (removeDailyTask_negative started_world (-1) H1)
    as (w' & Hrun & Hin & _).
  exists w'. split; [exact Hrun|].
  destruct (Hin H2) as [Hr _]. rewrite Hr. reflexivity.
Defined.

(** *** The actions as a whole *)

Lemma resetDailyTasks_run w :
  resetDailyTasks w = Return tt (reset_world (now w) w).
Proof. unfold resetDailyTasks. js_run. apply performDailyReset_run. Qed.

Lemma onTimeDisplayClick_run w :
  onTimeDisplayClick w
  = Return tt (saved_world
      (set_settings
         (set_timeFormat
            (if String.eqb (timeFormat (settings (state w))) "12h"
             then "24h" else "12h")
            (settings (state w)))
         (state w)) w).
Proof. unfold onTimeDisplayClick. by js_run. Qed.

Lemma onDateDisplayClick_run w :
  onDateDisplayClick w
  = Return tt (saved_world
      (set_settings
         (set_dateFormat
            (default (dateFormat (settings (state w)))
               (at_index ["Month"; "MM/DD"; "DD/MM"]
                  (Z.rem (indexOf ["Month"; "MM/DD"; "DD/MM"]
                            (dateFormat (settings (state w))) + 1) 3)))
            (settings (state w)))
         (state w)) w).
Proof. unfold onDateDisplayClick. by js_run. Qed.

Lemma onFontBtnClick_run w n :
  onFontBtnClick n w
  = Return tt (saved_world
      (set_settings (set_font n (settings (state w))) (state w)) w).
Proof. unfold onFontBtnClick. by js_run. Qed.

Lemma onColorBtnClick_run w c :
  onColorBtnClick c w
  = Return tt (saved_world
      (set_settings (set_themeColor c (settings (state w))) (state w)) w).
Proof. unfold onColorBtnClick. by js_run. Qed.

(** Splits on the action and on the branch it takes in [w], and puts the
    outcome of each branch in place of the call. *)
Ltac action_cases a w :=
  let text := fresh "text" in
  let id := fresh "id" in
  let index := fresh "index" in
  let newText := fresh "newText" in
  let Hb := fresh "Hb" in
  let Hfind := fresh "Hfind" in
  let Hidx := fresh "Hidx" in
  let i := fresh "i" in
  let t := fresh "t" in
  destruct a as [text|id|index newText|index| | | | |?|?]; cbn [run];
  [ destruct (decide (trim text = "")) as [Hb|Hb];
    [ rewrite (addTask_blank w text Hb) | rewrite (addTask_run w text Hb) ]
  | destruct (list_find (λ t, Task.id t = id) (tasks (state w)))
      as [[i t]|] eqn:Hfind;
    [ rewrite (toggleTask_match w id i t Hfind)
    | rewrite (toggleTask_no_match w id Hfind) ]
  | destruct (decide (trim newText = "")) as [Hb|Hb];
    [ rewrite (updateDailyTask_blank w index newText Hb)
    | destruct (at_index (dailyRoutine (state w)) index) as [t|] eqn:Hidx;
      [ rewrite (updateDailyTask_defined w index newText t Hb Hidx)
      | rewrite (updateDailyTask_undefined w index newText Hb Hidx) ] ]
  | rewrite (removeDailyTask_run w index)
  | rewrite (addDailyTemplate_run w)
  | rewrite (resetDailyTasks_run w)
  | rewrite (onTimeDisplayClick_run w)
  | rewrite (onDateDisplayClick_run w)
  | rewrite onFontBtnClick_run
  | rewrite onColorBtnClick_run ].

Lemma flip_completed_twice t : flip_completed (flip_completed t) = t.
Proof. destruct t as [i x c ty d]. unfold flip_completed. simpl. by rewrite negb_involutive. Qed.

Lemma task_key_flip t : task_key (flip_completed t) = task_key t.
Proof. done. Qed.

Lemma set_tasks_same st : set_tasks (tasks st) st = st.
Proof. by destruct st. Qed.

Lemma list_find_toggled id l i t :
  list_find (λ t, Task.id t = id) l = Some (i, t) →
  list_find (λ t, Task.id t = id) (<[i := flip_completed t]> l)
  = Some (i, flip_completed t).
Proof.
  intros (Hi & Hid & Hfirst)%list_find_Some. apply list_find_Some. split_and!.
  - apply list_lookup_insert_eq. by eapply lookup_lt_Some.
  - done.
  - intros j y Hj Hlt. rewrite list_lookup_insert_ne in Hj by lia.
    by eapply Hfirst.
Qed.

(** X6.  Toggling the same identifier twice brings the state back: both
    calls act on the same task, and its [completed] flag is negated twice. *)
Theorem toggleTask_twice (w : World) (id : string) :
  ∃ w1 w2,
    toggleTask id w = Return tt w1 ∧
    toggleTask id w1 = Return tt w2 ∧
    state w2 = state w.
Proof.
  destruct (list_find (λ t, Task.id t = id) (tasks (state w)))
    as [[i t]|] eqn:Hfind.
  - eexists _, _. split; [by apply toggleTask_match|]. split.
    + apply toggleTask_match. cbn [state saved_world set_tasks tasks].
      by apply list_find_toggled.
    + cbn [state saved_world set_tasks tasks dailyRoutine settings lastOpenDate].
      rewrite list_insert_insert_eq, flip_completed_twice.
      apply list_find_Some in Hfind as (Hi & _).
      rewrite list_insert_id by done. by destruct (state w).
  - exists w, w. split_and!; [by apply toggleTask_no_match..|done].
Qed.

(** X7.  Apart from a reset, no action loses, moves or rewrites a task: the
    tasks that were there are still there, at the same positions and with
    the same identifier, text, type and date; an action can only add tasks
    after them or change a completion flag. *)
Theorem only_reset_drops_tasks (a : Action) (w : World) :
  a ≠ ResetDailyTasks →
  map task_key (tasks (state w))
  `prefix_of` map task_key (tasks (state (world_of (run a w)))).
Proof.
  intros Ha. action_cases a w;
    cbn [world_of state saved_world set_tasks set_dailyRoutine set_settings
         advance tasks]; try done.
  - rewrite map_app. by apply prefix_app_r.
  - change (map task_key) with (fmap (M:=list) task_key).
    rewrite list_fmap_insert, task_key_flip.
    apply list_find_Some in Hfind as (Hi & _).
    rewrite list_insert_id; [done|]. by rewrite list_lookup_fmap, Hi.
Qed.

Lemma only_reset_drops_tasks_witness :
  AddTask "Call mum" ≠ ResetDailyTasks ∧
  map task_key (tasks (state started_world))
  `prefix_of`
  map task_key (tasks (state (world_of (run (AddTask "Call mum") started_world)))).
Proof.
  assert (H : AddTask "Call mum" ≠ ResetDailyTasks) by discriminate.
  split; [exact H|]. exact (only_reset_drops_tasks _ _ H).
Defined.

(** X8.  What each action can change.  [tasks] is changed only by adding a
    task, toggling one and a reset; [dailyRoutine] only by editing, removing
    and adding a template; [settings] only by the four settings handlers;
    [lastOpenDate] only by a reset.  This holds whatever the arguments and
    whether or not the action throws. *)
Theorem action_frame (a : Action) (w : World) :
  match a with
  | AddTask _ | ToggleTask _ | ResetDailyTasks => True
  | _ => tasks (state (world_of (run a w))) = tasks (state w)
  end ∧
  match a with
  | UpdateDailyTask _ _ | RemoveDailyTask _ | AddDailyTemplate => True
  | _ => dailyRoutine (state (world_of (run a w))) = dailyRoutine (state w)
  end ∧
  match a with
  | TimeDisplayClick | DateDisplayClick | FontBtnClick _ | ColorBtnClick _ => True
  | _ => settings (state (world_of (run a w))) = settings (state w)
  end ∧
  match a with
  | ResetDailyTasks => True
  | _ => lastOpenDate (state (world_of (run a w))) = lastOpenDate (state w)
  end.
Proof. action_cases a w; by split_and!. Qed.

(** X9.  The one action that can throw is [updateDailyTask], and it throws
    in one situation only: a text that is not blank for an index outside the
    routine.  The exception is a TypeError and the world is as it was. *)
Theorem only_updateDailyTask_throws (a : Action) (w w' : World) (e : JsError) :
  run a w = Throw e w' →
  e = TypeError ∧ w' = w ∧
  ∃ index newText,
    a = UpdateDailyTask index newText ∧
    trim newText ≠ "" ∧
    ¬ (0 ≤ index < Z.of_nat (length (dailyRoutine (state w)))).
Proof.
  action_cases a w; intros Hrun; try discriminate.
  injection Hrun as <- <-. split_and!; [done..|].
  eexists _, _. split_and!; [done..|]. by apply at_index_None.
Qed.

Lemma only_updateDailyTask_throws_witness :
  run (UpdateDailyTask 3 "Walk") started_world = Throw TypeError started_world ∧
  ∃ index newText,
    UpdateDailyTask 3 "Walk" = UpdateDailyTask index newText ∧
    trim newText ≠ "" ∧
    ¬ (0 ≤ index < Z.of_nat (length (dailyRoutine (state started_world)))).
Proof.
  assert (H : run (UpdateDailyTask 3 "Walk") started_world
              = Throw TypeError started_world) by reflexivity.
  split; [exact H|].
  exact (proj2 (proj2 (only_updateDailyTask_throws _ _ _ _ H))).
Defined.

(** X10.  Every action either leaves the world exactly as it was (a no-op
    or an exception) or ends by writing the state it has produced to storage.
    So when storage and memory agree before an action, they agree after
    it. *)
Theorem actions_keep_storage_in_sync (a : Action) (w : World) :
  (world_of (run a w) = w ∨
   localStorage (world_of (run a w))
   = JSON_stringify (state (world_of (run a w))) :: localStorage w) ∧
  (in_sync w → in_sync (world_of (run a w))).
Proof.
  assert (H : world_of (run a w) = w ∨
              localStorage (world_of (run a w))
              = JSON_stringify (state (world_of (run a w))) :: localStorage w).
  { action_cases a w; first [by left | by right]. }
  split; [done|]. intros Hsync. destruct H as [-> | H]; [done|].
  unfold in_sync. by rewrite H.
Qed.

Lemma actions_keep_storage_in_sync_witness :
  in_sync started_world ∧
  in_sync (world_of (run (ToggleTask "_b") started_world)).
Proof.
  assert (H : in_sync started_world) by reflexivity.
  split; [exact H|].
  exact (proj2 (actions_keep_storage_in_sync (ToggleTask "_b") started_world) H).
Defined.

(** *** Sessions: storage, restart and the change of day *)

Lemma reload_load w :
  in_sync w → loadState (reload w) = Return tt w.
Proof.
  intros Hsync. rewrite (loadState_saved (reload w) (state w)) by done.
  by destruct w.
Qed.

Lemma reconcile_in_sync w :
  in_sync w → ∃ w', reconcile w = Return tt w' ∧ in_sync w'.
Proof.
  intros Hsync. rewrite reconcile_run.
  assert (Hens : ∀ v, in_sync v →
            ∃ v', ensureDailyTasks v = Return tt v' ∧ in_sync v').
  { intros v Hv. destruct (hasDailyTasks (tasks (state v))) eqn:Hhas.
    - exists v. split; [|done]. apply ensureDailyTasks_skips. by left.
    - destruct (decide (dailyRoutine (state v) = [])) as [Hnil|Hne].
      + exists v. split; [|done]. apply ensureDailyTasks_skips. by right.
      + exists (backfill_world v). split; [|done].
        by apply ensureDailyTasks_fires. }
  destruct (decide (lastOpenDate (state w) = Some (now w))) as [Heq|Hneq].
  - rewrite checkMidnightReset_skips by done. by apply Hens.
  - rewrite checkMidnightReset_fires by done. by apply Hens.
Qed.

(** X11.  When nothing is stored, or when what is stored is a state that
    [saveState] wrote, [init] returns and leaves storage and memory in
    agreement: whatever the reset and the backfill changed has been
    written. *)
Theorem init_leaves_storage_in_sync (w : World) :
  localStorage w = [] ∨ (∃ st, head (localStorage w) = Some (JSON_stringify st)) →
  ∃ w', init w = Return tt w' ∧ in_sync w'.
Proof.
  intros [Hnone | [st Hst]].
  - rewrite init_run, loadState_absent by (left; by rewrite Hnone).
    by apply reconcile_in_sync.
  - rewrite (init_persisted w st Hst). by apply reconcile_in_sync.
Qed.

Lemma init_leaves_storage_in_sync_witness :
  (localStorage tuesday_world = [] ∨
   ∃ st, head (localStorage tuesday_world) = Some (JSON_stringify st)) ∧
  ∃ w', init tuesday_world = Return tt w' ∧ in_sync w'.
Proof.
  assert (H : localStorage tuesday_world = [] ∨
              ∃ st, head (localStorage tuesday_world) = Some (JSON_stringify st))
    by (right; exists monday_state; reflexivity).
  split; [exact H|]. exact (init_leaves_storage_in_sync tuesday_world H).
Defined.

(** X12.  Save and load are inverse: after [saveState], a page that is
    loaded again, whatever its in-memory state, gets from [loadState] exactly
    the state that was saved, tasks with their completion flags, settings,
    date and routine (an empty routine comes back empty: the defaults are
    not merged over it), and reads storage without writing to it. *)
Theorem save_then_load_restores (w : World) (st0 : AppState) :
  ∃ w1 w2,
    saveState w = Return tt w1 ∧
    loadState (with_state st0 w1) = Return tt w2 ∧
    state w2 = state w ∧
    localStorage w2 = JSON_stringify (state w) :: localStorage w.
Proof.
  eexists _, _. split; [unfold saveState; by js_run|].
  split; [by apply (loadState_saved _ (state w))|].
  by split.
Qed.

(** X13.  Opening the page again on the same day changes nothing.  In a
    world where storage and memory agree, [lastOpenDate] is today and either
    a daily task is present or the routine is empty, [init] on the reloaded
    page returns in that very world: same tasks, same completion flags,
    nothing drawn and nothing written. *)
Theorem reopen_same_day (w : World) :
  in_sync w →
  lastOpenDate (state w) = Some (now w) →
  hasDailyTasks (tasks (state w)) = true ∨ dailyRoutine (state w) = [] →
  init (reload w) = Return tt w.
Proof.
  intros Hsync Hdate Hskip.
  rewrite init_run, reload_load by done.
  rewrite reconcile_run, checkMidnightReset_skips by done.
  by apply ensureDailyTasks_skips.
Qed.

Lemma reopen_same_day_witness :
  in_sync started_world ∧
  lastOpenDate (state started_world) = Some (now started_world) ∧
  (hasDailyTasks (tasks (state started_world)) = true ∨
   dailyRoutine (state started_world) = []) ∧
  init (reload started_world) = Return tt started_world.
Proof.
  assert (H1 : in_sync started_world) by reflexivity.
  assert (H2 : lastOpenDate (state started_world) = Some (now started_world))
    by reflexivity.
  assert (H3 : hasDailyTasks (tasks (state started_world)) = true ∨
               dailyRoutine (state started_world) = []) by (left; reflexivity).
  split; [exact H1|]. split; [exact H2|]. split; [exact H3|].
  exact (reopen_same_day started_world H1 H2 H3).
Defined.

(** X14.  The reset check fires at most once per day: whatever the state,
    after one [checkMidnightReset] a second one on the same day does
    nothing. *)
Theorem checkMidnightReset_once_a_day (w : World) :
  ∃ w1,
    checkMidnightReset w = Return tt w1 ∧
    lastOpenDate (state w1) = Some (now w1) ∧
    now w1 = now w ∧
    checkMidnightReset w1 = Return tt w1.
Proof.
  destruct (decide (lastOpenDate (state w) = Some (now w))) as [Heq|Hneq].
  - exists w. split_and!; try done; by apply checkMidnightReset_skips.
  - exists (reset_world (now w) w).
    split_and!; try done; [by apply checkMidnightReset_fires|].
    by apply checkMidnightReset_skips.
Qed.

(** X15.  A stored state without [lastOpenDate] (the key is absent, or its
    value is [null]) is reset at startup: [init], started from the initial
    in-memory state, finds [null], which is not today's date, and replaces
    the stored tasks by one instance per template of the stored routine. *)
Theorem missing_lastOpenDate_resets (w : World) (saved : Saved)
    (r : list RoutineTemplate.t) :
  head (localStorage w) = Some (Json saved) →
  lastOpenDate (state w) = None →
  saved_lastOpenDate saved = None ∨ saved_lastOpenDate saved = Some None →
  saved_dailyRoutine saved = Some (Some r) →
  routine_daily r →
  ∃ w',
    init w = Return tt w' ∧
    Forall2 (instance_of (now w)) r (tasks (state w')) ∧
    map Task.id (tasks (state w')) = fresh_ids w (length r) ∧
    lastOpenDate (state w') = Some (now w) ∧
    dailyRoutine (state w') = r.
Proof.
  intros Hhead Hmem Hkey Hroutine Hr.
  set (v := with_state (loaded_state (state w) saved) w).
  assert (Hvr : dailyRoutine (state v) = r) by (simpl; by rewrite Hroutine).
  assert (Hvd : lastOpenDate (state v) ≠ Some (now v)).
  { simpl. destruct Hkey as [-> | ->]; simpl; [by rewrite Hmem|done]. }
  exists (reset_world (now v) v). split.
  - rewrite init_run, (loadState_parsed w saved Hhead).
    fold v. rewrite reconcile_run, checkMidnightReset_fires by done.
    apply ensureDailyTasks_after_reset. by rewrite Hvr.
  - cbn [state reset_world reset_state tasks lastOpenDate dailyRoutine].
    rewrite Hvr.
    pose proof (length_fresh_ids v (length r)) as Hlen.
    split_and!; [by apply instantiate_instances | by apply instantiate_ids
                | done | done].
Qed.

Lemma missing_lastOpenDate_resets_witness :
  head (localStorage undated_world) = Some (Json undated_saved) ∧
  lastOpenDate (state undated_world) = None ∧
  (saved_lastOpenDate undated_saved = None ∨
   saved_lastOpenDate undated_saved = Some None) ∧
  saved_dailyRoutine undated_saved = Some (Some [stretch]) ∧
  routine_daily [stretch] ∧
  ∃ w', init undated_world = Return tt w' ∧
        map Task.id (tasks (state w')) = ["_a"] ∧
        lastOpenDate (state w') = Some "Mon Jan 01 2024".
Proof.
  assert (H3 : saved_lastOpenDate undated_saved = None ∨
               saved_lastOpenDate undated_saved = Some None) by (left; reflexivity).
  assert (H5 : routine_daily [stretch]) by (repeat constructor).
  split; [reflexivity|]. split; [reflexivity|]. split; [exact H3|].
  split; [reflexivity|]. split; [exact H5|].
  destruct (missing_lastOpenDate_resets undated_world undated_saved [stretch]
              eq_refl eq_refl H3 eq_refl H5) as (w' & Hinit & _ & Hids & Hd & _).
  exists w'. split; [exact Hinit|]. split; [exact Hids | exact Hd].
Defined.

(** X16.  On stored content of the types of the data model, [init] throws
    in one situation only.  The stored text is here nothing, the empty text,
    a text that is not JSON, or a JSON document whose fields, where present,
    have the types of the data model (any of the four keys may be missing,
    [dailyRoutine] and [lastOpenDate] may be [null]): a document with a field
    of another type is not a [Blob], and this says nothing about it.  On
    such content [init] throws exactly when the text is not empty and is not
    JSON; the exception is then the SyntaxError of [JSON.parse] and the world
    is untouched; in every other case [init] returns. *)
Theorem init_throws_only_on_unparseable (w : World) :
  ((∃ e w', init w = Throw e w') ↔
   (∃ raw, head (localStorage w) = Some (NotJson raw) ∧ raw ≠ "")) ∧
  (∀ e w', init w = Throw e w' → e = SyntaxError ∧ w' = w) ∧
  ((∃ e w', init w = Throw e w') ∨ (∃ w', init w = Return tt w')).
Proof.
  assert (Hcases :
    (∃ raw, head (localStorage w) = Some (NotJson raw) ∧ raw ≠ "" ∧
            init w = Throw SyntaxError w) ∨
    ((¬ ∃ raw, head (localStorage w) = Some (NotJson raw) ∧ raw ≠ "") ∧
     ∃ w', init w = Return tt w')).
  { destruct (head (localStorage w)) as [[raw|saved]|] eqn:Hhead.
    - destruct (decide (raw = "")) as [->|Hraw].
      + right. split; [intros (raw & [= <-] & Hne); done|].
        rewrite init_run, loadState_absent by (by right).
        destruct (reconcile_returns (firstRun_world w)) as (w' & Hrec & _).
        by exists w'.
      + left. exists raw. split_and!; [done..|].
        by rewrite init_run, (loadState_unparseable w raw).
    - right. split; [intros (raw & [=] & _)|].
      rewrite init_run, (loadState_parsed w saved Hhead).
      destruct (reconcile_returns (with_state (loaded_state (state w) saved) w))
        as (w' & Hrec & _).
      by exists w'.
    - right. split; [intros (raw & [=] & _)|].
      rewrite init_run, loadState_absent by (by left).
      destruct (reconcile_returns (firstRun_world w)) as (w' & Hrec & _).
      by exists w'. }
  destruct Hcases as [(raw & Hhead & Hraw & Hinit) | (Hnot & w' & Hinit)].
  - split_and!.
    + split; [intros _; by exists raw | intros _; by eexists _, _].
    + intros e v Hthrow. rewrite Hinit in Hthrow. by injection Hthrow as <- <-.
    + left. by eexists _, _.
  - split_and!.
    + split; [intros (e & v & Hthrow); congruence | done].
    + intros e v Hthrow. congruence.
    + right. by exists w'.
Qed.

Lemma init_throws_only_on_unparseable_witness :
  init broken_world = Throw SyntaxError broken_world ∧
  SyntaxError = SyntaxError ∧ broken_world = broken_world.
Proof.
  assert (H : init broken_world = Throw SyntaxError broken_world) by reflexivity.
  split; [exact H|].
  exact (proj1 (proj2 (init_throws_only_on_unparseable broken_world)) _ _ H).
Defined.

Lemma instantiate_lookup d r ids i t :
  length ids = length r → r !! i = Some t →
  ∃ x, instantiate d r ids !! i = Some x ∧ instance_of d t x.
Proof.
  intros Hlen Hi.
  by eapply Forall2_lookup_l in Hi; [|by apply instantiate_instances].
Qed.

(** X17.  An edit of a template shows at the next reset.  After
    [updateDailyTask] has given the template at a valid index a new text,
    today's tasks are as they were; when the page is next checked on another
    date, the reset puts at that index a task with the new, trimmed text, not
    completed and dated that day. *)
Theorem edit_shows_after_next_reset (w : World) (index : Z)
    (newText tomorrow : string) :
  trim newText ≠ "" →
  0 ≤ index < Z.of_nat (length (dailyRoutine (state w))) →
  lastOpenDate (state w) ≠ Some tomorrow →
  ∃ w1 w2 t,
    updateDailyTask index newText w = Return tt w1 ∧
    tasks (state w1) = tasks (state w) ∧
    checkMidnightReset (at_date tomorrow w1) = Return tt w2 ∧
    tasks (state w2) !! Z.to_nat index = Some t ∧
    Task.text t = trim newText ∧
    Task.completed t = false ∧
    Task.dateAdded t = tomorrow ∧
    length (tasks (state w2)) = length (dailyRoutine (state w)).
Proof.
  intros Hb Hrange Hdate.
  destruct (proj2 (at_index_in_range (dailyRoutine (state w)) index) Hrange)
    as [tpl Htpl].
  pose proof Htpl as [_ Hlook]%at_index_Some.
  set (w1 := saved_world
      (set_dailyRoutine (<[Z.to_nat index := set_text (trim newText) tpl]>
                           (dailyRoutine (state w))) (state w)) w).
  set (v := at_date tomorrow w1).
  pose proof (length_fresh_ids v (length (dailyRoutine (state v)))) as Hlen.
  assert (Hv : dailyRoutine (state v) !! Z.to_nat index
               = Some (set_text (trim newText) tpl)).
  { simpl. apply list_lookup_insert_eq. by eapply lookup_lt_Some. }
  destruct (instantiate_lookup tomorrow _ _ _ _ Hlen Hv)
    as (t & Ht & Htext & _ & Hc & Hd).
  exists w1, (reset_world tomorrow v), t. split_and!; try done.
  - by apply updateDailyTask_defined.
  - by apply (checkMidnightReset_fires v).
  - cbn [state reset_world reset_state tasks].
    rewrite length_instantiate by done. simpl. by rewrite length_insert.
Qed.

Lemma edit_shows_after_next_reset_witness :
  trim " Walk " ≠ "" ∧
  0 ≤ 1 < Z.of_nat (length (dailyRoutine (state started_world))) ∧
  lastOpenDate (state started_world) ≠ Some "Wed Jan 03 2024" ∧
  ∃ w1 w2,
    updateDailyTask 1 " Walk " started_world = Return tt w1 ∧
    checkMidnightReset (at_date "Wed Jan 03 2024" w1) = Return tt w2 ∧
    length (tasks (state w2)) = 3%nat.
Proof.
  assert (H1 : trim " Walk " ≠ "") by (vm_compute; discriminate).
  assert (H2 : 0 ≤ 1 < Z.of_nat (length (dailyRoutine (state started_world))))
    by (simpl; lia).
  assert (H3 : lastOpenDate (state started_world) ≠ Some "Wed Jan 03 2024")
    by (vm_compute; discriminate).
  split; [exact H1|]. split; [exact H2|]. split; [exact H3|].
  destruct (edit_shows_after_next_reset started_world 1 " Walk "
              "Wed Jan 03 2024" H1 H2 H3)
    as (w1 & w2 & t & Hup & _ & Hreset & _ & _ & _ & _ & Hlen).
  exists w1, w2. split; [exact Hup|]. split; [exact Hreset | exact Hlen].
Defined.

(** *** The display settings *)

(** X18.  A click on the time toggles the format: "12h" becomes "24h", and
    every other value, "24h" included, becomes "12h".  The other settings,
    the tasks, the routine and [lastOpenDate] stay, the state is persisted,
    and two clicks bring a state with one of the two formats back to what it
    was. *)
Theorem time_click_toggles (w : World) :
  ∃ w1 w2,
    onTimeDisplayClick w = Return tt w1 ∧
    onTimeDisplayClick w1 = Return tt w2 ∧
    (timeFormat (settings (state w)) = "12h" →
     timeFormat (settings (state w1)) = "24h") ∧
    (timeFormat (settings (state w)) ≠ "12h" →
     timeFormat (settings (state w1)) = "12h") ∧
    state w1 = set_settings
                 (set_timeFormat (timeFormat (settings (state w1)))
                                 (settings (state w))) (state w) ∧
    localStorage w1 = JSON_stringify (state w1) :: localStorage w ∧
    (timeFormat (settings (state w)) = "12h" ∨
     timeFormat (settings (state w)) = "24h" → state w2 = state w).
Proof.
  eexists _, _. split; [apply onTimeDisplayClick_run|].
  split; [apply onTimeDisplayClick_run|].
  cbn [state saved_world set_settings set_timeFormat settings timeFormat
       localStorage].
  split_and!; try done.
  - by intros ->.
  - intros Hne. by destruct (String.eqb_spec (timeFormat (settings (state w))) "12h").
  - intros [H | H]; rewrite H; simpl;
      destruct (state w) as [ts r [f tf df c] d]; simpl in *; by subst.
Qed.

Lemma time_click_toggles_witness :
  timeFormat (settings (state started_world)) = "12h" ∧
  ∃ w1 w2,
    onTimeDisplayClick started_world = Return tt w1 ∧
    onTimeDisplayClick w1 = Return tt w2 ∧
    timeFormat (settings (state w1)) = "24h" ∧
    state w2 = state started_world.
Proof.
  assert (H : timeFormat (settings (state started_world)) = "12h") by reflexivity.
  split; [exact H|].
  destruct (time_click_toggles started_world)
    as (w1 & w2 & H1 & H2 & H12 & _ & _ & _ & Hback).
  exists w1, w2. split; [exact H1|]. split; [exact H2|].
  split; [exact (H12 H) | exact (Hback (or_introl H))].
Defined.

(** The format that follows [x] in [onDateDisplayClick]. *)
Lemma next_dateFormat x :
  default x (at_index ["Month"; "MM/DD"; "DD/MM"]
               (Z.rem (indexOf ["Month"; "MM/DD"; "DD/MM"] x + 1) 3))
  = if String.eqb x "Month" then "MM/DD"
    else if String.eqb x "MM/DD" then "DD/MM"
    else "Month".
Proof.
  cbn [indexOf].
  rewrite (String.eqb_sym "Month" x), (String.eqb_sym "MM/DD" x),
    (String.eqb_sym "DD/MM" x).
  destruct (String.eqb x "Month"); [done|].
  destruct (String.eqb x "MM/DD"); [done|].
  by destruct (String.eqb x "DD/MM").
Qed.

(** X19.  A click on the date moves the format one step along the cycle
    Month, MM/DD, DD/MM, Month; a value that is none of the three becomes
    "Month".  The other settings, the tasks, the routine and [lastOpenDate]
    stay, and three clicks bring a state with one of the three formats back
    to what it was. *)
Theorem date_click_cycles (w : World) :
  ∃ w1 w2 w3,
    onDateDisplayClick w = Return tt w1 ∧
    onDateDisplayClick w1 = Return tt w2 ∧
    onDateDisplayClick w2 = Return tt w3 ∧
    (dateFormat (settings (state w)) = "Month" →
     dateFormat (settings (state w1)) = "MM/DD") ∧
    (dateFormat (settings (state w)) = "MM/DD" →
     dateFormat (settings (state w1)) = "DD/MM") ∧
    (dateFormat (settings (state w)) = "DD/MM" →
     dateFormat (settings (state w1)) = "Month") ∧
    (dateFormat (settings (state w)) ≠ "Month" →
     dateFormat (settings (state w)) ≠ "MM/DD" →
     dateFormat (settings (state w1)) = "Month") ∧
    state w1 = set_settings
                 (set_dateFormat (dateFormat (settings (state w1)))
                                 (settings (state w))) (state w) ∧
    (dateFormat (settings (state w)) = "Month" ∨
     dateFormat (settings (state w)) = "MM/DD" ∨
     dateFormat (settings (state w)) = "DD/MM" → state w3 = state w).
Proof.
  eexists _, _, _. split; [apply onDateDisplayClick_run|].
  split; [apply onDateDisplayClick_run|].
  split; [apply onDateDisplayClick_run|].
  cbn [state saved_world set_settings set_dateFormat settings dateFormat].
  rewrite !next_dateFormat.
  split_and!; try done.
  - by intros ->.
  - by intros ->.
  - by intros ->.
  - intros H1 H2.
    destruct (String.eqb_spec (dateFormat (settings (state w))) "Month"); [done|].
    by destruct (String.eqb_spec (dateFormat (settings (state w))) "MM/DD").
  - intros [H | [H | H]]; rewrite H; simpl;
      destruct (state w) as [ts r [f tf df c] d]; simpl in *; by subst.
Qed.

Lemma date_click_cycles_witness :
  dateFormat (settings (state started_world)) = "Month" ∧
  ∃ w1 w2 w3,
    onDateDisplayClick started_world = Return tt w1 ∧
    onDateDisplayClick w1 = Return tt w2 ∧
    onDateDisplayClick w2 = Return tt w3 ∧
    dateFormat (settings (state w1)) = "MM/DD" ∧
    state w3 = state started_world.
Proof.
  assert (H : dateFormat (settings (state started_world)) = "Month") by reflexivity.
  split; [exact H|].
  destruct (date_click_cycles started_world)
    as (w1 & w2 & w3 & H1 & H2 & H3 & Hm & _ & _ & _ & _ & Hback).
  exists w1, w2, w3. split; [exact H1|]. split; [exact H2|]. split; [exact H3|].
  split; [exact (Hm H) | exact (Hback (or_introl H))].
Defined.

(** *** [escapeHtml] *)

Lemma app_cons x (a b : string) : String x a +:+ b = String x (a +:+ b).
Proof. reflexivity. Qed.

Lemma string_app_assoc (a b c : string) : (a +:+ b) +:+ c = a +:+ (b +:+ c).
Proof. induction a as [|x a IH]; [done|]. rewrite !app_cons. by rewrite IH. Qed.

Lemma replace_char_app c r a b :
  replace_char c r (a +:+ b) = replace_char c r a +:+ replace_char c r b.
Proof.
  induction a as [|x a IH]; [done|]. rewrite app_cons. cbn [replace_char].
  rewrite IH. destruct (Ascii.eqb x c); [|done].
  by rewrite string_app_assoc.
Qed.

Lemma five_replaces_app a b :
  five_replaces (a +:+ b) = five_replaces a +:+ five_replaces b.
Proof. unfold five_replaces. by rewrite !replace_char_app. Qed.

Lemma five_replaces_char c : five_replaces (String c "") = escape_char c.
Proof. destruct c as [[] [] [] [] [] [] [] []]; reflexivity. Qed.

Lemma five_replaces_chars s : five_replaces s = escape_chars s.
Proof.
  induction s as [|c s IH]; [done|].
  change (String c s) with (String c "" +:+ s).
  rewrite five_replaces_app, five_replaces_char, IH. done.
Qed.

Lemma escapeHtml_chars s : escapeHtml s = escape_chars s.
Proof.
  unfold escapeHtml, truthy. destruct s as [|c s]; [done|].
  rewrite bool_decide_eq_false_2 by done. apply five_replaces_chars.
Qed.

Lemma escape_chars_app a b :
  escape_chars (a +:+ b) = escape_chars a +:+ escape_chars b.
Proof.
  induction a as [|c a IH]; [done|]. rewrite app_cons. cbn [escape_chars].
  by rewrite IH, string_app_assoc.
Qed.

(** X20.  [escapeHtml] is one pass over the text.  Although the source
    applies five replacements one after the other, no replacement rewrites
    what an earlier one produced: every character is replaced once, by its
    entity if it is one of the five characters and by itself otherwise.  So
    the escaped form of a concatenation is the concatenation of the escaped
    forms, and the empty text stays empty. *)
Theorem escapeHtml_one_pass (a b : string) (c : Ascii.ascii) :
  escapeHtml (String c a) = escape_char c +:+ escapeHtml a ∧
  escapeHtml (a +:+ b) = escapeHtml a +:+ escapeHtml b ∧
  escapeHtml "" = "".
Proof.
  rewrite !escapeHtml_chars. split_and!; [done | apply escape_chars_app | done].
Qed.

Lemma escape_char_plain c :
  special c = false → escape_char c = String c "".
Proof. destruct c as [[] [] [] [] [] [] [] []]; (done || by intros [=]). Qed.

Lemma escape_char_safe c :
  Forall (λ x, x ≠ "<"%char ∧ x ≠ ">"%char ∧ x ≠ quot ∧ x ≠ apos)
         (String.list_ascii_of_string (escape_char c)).
Proof.
  destruct c as [[] [] [] [] [] [] [] []];
    repeat constructor; discriminate.
Qed.

Lemma list_ascii_of_string_app a b :
  String.list_ascii_of_string (a +:+ b)
  = String.list_ascii_of_string a ++ String.list_ascii_of_string b.
Proof.
  induction a as [|c a IH]; [done|]. rewrite app_cons. simpl. by rewrite IH.
Qed.

(** X21.  The text [escapeHtml] returns holds none of the characters [<],
    [>], double quote and apostrophe, whatever the input; and a text that
    holds none of the five special characters is returned as it is. *)
Theorem escapeHtml_output_safe (s : string) :
  Forall (λ x, x ≠ "<"%char ∧ x ≠ ">"%char ∧ x ≠ quot ∧ x ≠ apos)
         (String.list_ascii_of_string (escapeHtml s)) ∧
  (Forall (λ x, special x = false) (String.list_ascii_of_string s) →
   escapeHtml s = s).
Proof.
  rewrite escapeHtml_chars. split.
  - induction s as [|c s IH]; [constructor|]. cbn [escape_chars].
    rewrite list_ascii_of_string_app. apply Forall_app. split; [|done].
    apply escape_char_safe.
  - induction s as [|c s IH]; [done|]. intros [Hc Hs]%Forall_cons.
    cbn [escape_chars]. rewrite (escape_char_plain c Hc), (IH Hs). done.
Qed.

Lemma escapeHtml_output_safe_witness :
  Forall (λ x, special x = false) (String.list_ascii_of_string "Buy milk") ∧
  escapeHtml "Buy milk" = "Buy milk".
Proof.
  assert (H : Forall (λ x, special x = false) (String.list_ascii_of_string "Buy milk"))
    by (repeat constructor).
  split; [exact H|]. exact (proj2 (escapeHtml_output_safe "Buy milk") H).
Defined.

Lemma read_entity_escape_char c r :
  read_entity (escape_char c +:+ r)
  = if special c then Some (c, r) else None.
Proof. destruct c as [[] [] [] [] [] [] [] []]; reflexivity. Qed.

Lemma string_length_app (a b : string) :
  String.length (a +:+ b) = (String.length a + String.length b)%nat.
Proof.
  induction a as [|x a IH]; [done|]. rewrite app_cons. simpl. by rewrite IH.
Qed.

Lemma length_escape_char c r :
  (S (String.length r) ≤ String.length (escape_char c +:+ r))%nat.
Proof.
  rewrite string_length_app.
  destruct c as [[] [] [] [] [] [] [] []]; simpl; lia.
Qed.

Lemma unescape_escape_chars s fuel :
  (String.length (escape_chars s) ≤ fuel)%nat →
  unescape fuel (escape_chars s) = s.
Proof.
  revert fuel. induction s as [|c s IH]; intros fuel Hfuel.
  - by destruct fuel.
  - cbn [escape_chars] in *.
    pose proof (length_escape_char c (escape_chars s)) as Hlen.
    destruct fuel as [|fuel]; [lia|].
    pose proof (read_entity_escape_char c (escape_chars s)) as Hread.
    assert (Hle : (String.length (escape_chars s) ≤ fuel)%nat) by lia.
    destruct (special c) eqn:Hsp.
    + cbn [unescape].
      destruct (escape_char c +:+ escape_chars s) as [|x rest] eqn:Hesc;
        [simpl in Hlen; lia|].
      rewrite Hread. f_equal. by apply IH.
    + rewrite (escape_char_plain c Hsp) in *.
      rewrite app_cons in *. cbn [unescape]. rewrite Hread. f_equal.
      by apply IH.
Qed.

(** X22.  Nothing is lost by escaping: reading the entities of an escaped
    text back gives the text, so two different texts never have the same
    escaped form. *)
Theorem escapeHtml_injective (s s' : string) :
  unescapeHtml (escapeHtml s) = s ∧
  (escapeHtml s = escapeHtml s' → s = s').
Proof.
  assert (Hback : ∀ x, unescapeHtml (escapeHtml x) = x).
  { intros x. rewrite escapeHtml_chars. unfold unescapeHtml.
    by apply unescape_escape_chars. }
  split; [done|]. intros Heq.
  by rewrite <- (Hback s), <- (Hback s'), Heq.
Qed.

Lemma escapeHtml_injective_witness :
  escapeHtml "a<b" = escapeHtml "a<b" ∧
  unescapeHtml (escapeHtml "a<b") = "a<b" ∧ "a<b" = "a<b".
Proof.
  assert (H : escapeHtml "a<b" = escapeHtml "a<b") by reflexivity.
  destruct (escapeHtml_injective "a<b" "a<b") as [Hback Hinj].
  split; [exact H|]. split; [exact Hback | exact (Hinj H)].
Defined.

(** *** Task identifiers *)







(** *** A day of use, then the page is opened again *)

Lemma run_in_sync (a : Action) w :
  in_sync w → in_sync (world_of (run a w)).
Proof. intros Hsync. by action_cases a w. Qed.

Lemma run_dated_today (a : Action) w :
  lastOpenDate (state w) = Some (now w) →
  lastOpenDate (state (world_of (run a w))) = Some (now (world_of (run a w))).
Proof. intros Hdate. by action_cases a w. Qed.

(** X24.  What an action did is there when the page is opened again on the
    same day.  From a world where storage and memory agree and
    [lastOpenDate] is today, run any action; if the state then holds a daily
    task, or an empty routine, [init] on the reloaded page returns in exactly
    the world the action left. *)
Theorem action_survives_reopen (a : Action) (w : World) :
  in_sync w →
  lastOpenDate (state w) = Some (now w) →
  hasDailyTasks (tasks (state (world_of (run a w)))) = true
  ∨ dailyRoutine (state (world_of (run a w))) = [] →
  init (reload (world_of (run a w))) = Return tt (world_of (run a w)).
Proof.
  intros Hsync Hdate Hskip.
  rewrite init_run, reload_load by (by apply run_in_sync).
  rewrite reconcile_run, checkMidnightReset_skips by (by apply run_dated_today).
  by apply ensureDailyTasks_skips.
Qed.

Lemma action_survives_reopen_witness :
  in_sync started_world ∧
  lastOpenDate (state started_world) = Some (now started_world) ∧
  (hasDailyTasks (tasks (state (world_of (run (ToggleTask "_b") started_world))))
   = true
   ∨ dailyRoutine (state (world_of (run (ToggleTask "_b") started_world))) = []) ∧
  init (reload (world_of (run (ToggleTask "_b") started_world)))
  = Return tt (world_of (run (ToggleTask "_b") started_world)) ∧
  map Task.completed
    (tasks (state (world_of (run (ToggleTask "_b") started_world))))
  = [false; true; false].
Proof.
  assert (H1 : in_sync started_world) by reflexivity.
  assert (H2 : lastOpenDate (state started_world) = Some (now started_world))
    by reflexivity.
  assert (H3 : hasDailyTasks
                 (tasks (state (world_of (run (ToggleTask "_b") started_world))))
               = true
               ∨ dailyRoutine
                   (state (world_of (run (ToggleTask "_b") started_world))) = [])
    by (left; reflexivity).
  split; [exact H1|]. split; [exact H2|]. split; [exact H3|].
  split; [exact (action_survives_reopen _ _ H1 H2 H3) | reflexivity].
Defined.

(** *** The backfill *)

Lemma cons_neq_self {A} (x : A) (l : list A) : x :: l ≠ l.
Proof. intros H. apply (f_equal length) in H. simpl in H. lia. Qed.

(** X25.  [ensureDailyTasks] always returns, and it changes the world in
    one situation only: no task has type [daily] and the routine is not
    empty.  Whether it fires or not, it drops no task: the tasks that were
    there are the tail of the tasks afterwards, and the routine, the
    settings and [lastOpenDate] stay. *)
Theorem backfill_only_when_needed (w : World) :
  ∃ w',
    ensureDailyTasks w = Return tt w' ∧
    (w' ≠ w ↔ hasDailyTasks (tasks (state w)) = false
              ∧ dailyRoutine (state w) ≠ []) ∧
    tasks (state w) `suffix_of` tasks (state w') ∧
    dailyRoutine (state w') = dailyRoutine (state w) ∧
    settings (state w') = settings (state w) ∧
    lastOpenDate (state w') = lastOpenDate (state w).
Proof.
  destruct (hasDailyTasks (tasks (state w))) eqn:Hhas;
    [|destruct (decide (dailyRoutine (state w) = [])) as [Hnil|Hne]].
  - exists w. split; [apply ensureDailyTasks_skips; by left|].
    split_and!; try done. split; [done | by intros [? _]].
  - exists w. split; [apply ensureDailyTasks_skips; by right|].
    split_and!; try done. split; [done | by intros [_ ?]].
  - exists (backfill_world w). split; [by apply ensureDailyTasks_fires|].
    split_and!; try done.
    + split; [done|]. intros _ Heq. apply (f_equal localStorage) in Heq.
      simpl in Heq. by apply cons_neq_self in Heq.
    + by eexists.
Qed.
